(** * 2OpenaiDraw: the two image-generation proxies

    A shallow embedding of the two Deno handlers of the repository,

    - [src/jimeng2opendraw.ts]: the single-route proxy in front of the
      jimeng upstream (module [Jimeng]);
    - the all-paths proxy in front of [api.x.ai] (module [XAI]);

    together with the part of the JavaScript platform they stand on
    (module [JS]): JSON values and property reads, [Headers], [URL] and
    its search parameters, [Request], [Response], [fetch], exceptions and
    [try]/[catch]. *)

From Stdlib Require Import String Ascii ZArith QArith List Bool Lia.
From stdpp Require Import base option gmap strings list fin_maps.

Set Warnings "-register-all,-clear-no-such-hyp".
Local Open Scope string_scope.
Local Open Scope Z_scope.

(* ===================================================================== *)
(** * The platform *)
(* ===================================================================== *)

Module JS.

(** ** Strings *)

(** [s.startsWith(p)]. *)
Definition startsWith (p s : string) : bool := String.prefix p s.

(** [s.includes(needle)]: [needle] occurs somewhere in [s]. *)
Fixpoint includes (needle s : string) : bool :=
  String.prefix needle s ||
  match s with
  | EmptyString => false
  | String _ s' => includes needle s'
  end.

(** Byte lower-casing, as the [Headers] class applies to header names. *)
Definition lower_ascii (c : ascii) : ascii :=
  let n := nat_of_ascii c in
  if ((65 <=? n)%nat && (n <=? 90)%nat)%bool then ascii_of_nat (n + 32) else c.

Fixpoint toLowerCase (s : string) : string :=
  match s with
  | EmptyString => EmptyString
  | String c s' => String (lower_ascii c) (toLowerCase s')
  end.

(** Byte upper-casing, as the [Request] constructor applies to methods. *)
Definition upper_ascii (c : ascii) : ascii :=
  let n := nat_of_ascii c in
  if ((97 <=? n)%nat && (n <=? 122)%nat)%bool then ascii_of_nat (n - 32) else c.

Fixpoint toUpperCase (s : string) : string :=
  match s with
  | EmptyString => EmptyString
  | String c s' => String (upper_ascii c) (toUpperCase s')
  end.

(** ** JSON values

    What [JSON.parse] can return.  [undefined] is not among them: reading
    a property gives an [option JSON], [None] standing for [undefined].
    A finite number is kept exact ([JNum]); the handlers only ask whether
    it is zero.  A literal beyond the range of a double, such as [1e400],
    parses to [Infinity] or [-Infinity] ([JInfinity]).  [NaN] has no
    literal. *)

Inductive JSON : Type :=
| JNull
| JBool (b : bool)
| JNum (q : Q)
| JInfinity (negative : bool)
| JStr (s : string)
| JArr (l : list JSON)
| JObj (m : gmap string JSON).

(** [ToBoolean]: [null], [false], [0], [""] are falsy, as is [undefined]. *)
Definition ToBoolean (v : JSON) : bool :=
  match v with
  | JNull => false
  | JBool b => b
  | JNum q => negb (Qeq_bool q 0)
  | JInfinity _ => true
  | JStr s => negb (String.eqb s "")
  | JArr _ => true
  | JObj _ => true
  end.

Definition truthy (v : option JSON) : bool :=
  match v with
  | None => false
  | Some x => ToBoolean x
  end.

(** ** Exceptions *)

Record Error := { name : string; message : string }.

Inductive Completion (A : Type) : Type :=
| Normal (a : A)
| Throw (e : Error).
Arguments Normal {A} a.
Arguments Throw {A} e.

Definition TypeError (msg : string) : Error := {| name := "TypeError"; message := msg |}.
Definition RangeError (msg : string) : Error := {| name := "RangeError"; message := msg |}.

(** [v[k]] for a parsed value [v] and a name [k] that no built-in
    prototype defines (every name the handlers read is such a name:
    model, prompt, n, response_format, negativePrompt, width, height,
    sample_strength).  Reading a property of [null] throws; a primitive
    or an array has no such property; an object answers with its own. *)
Definition get (v : JSON) (k : string) : Completion (option JSON) :=
  match v with
  | JNull => Throw (TypeError ("Cannot read properties of null (reading '" ++ k ++ "')"))
  | JObj m => Normal (m !! k)
  | JBool _ | JNum _ | JInfinity _ | JStr _ | JArr _ => Normal None
  end.

(** What [JSON.stringify] writes for a value, as the value its text
    denotes: a non-finite number is written [null], at any depth. *)
Fixpoint written (v : JSON) : JSON :=
  match v with
  | JInfinity _ => JNull
  | JArr l => JArr (map written l)
  | JObj m => JObj (written <$> m)
  | JNull | JBool _ | JNum _ | JStr _ => v
  end.

(** ** Headers

    A [Headers] object as the map its [get] exposes: lower-cased name to
    (combined) value. *)

Abbreviation Headers := (gmap string string).

Definition Headers_set (k v : string) (h : Headers) : Headers := <[toLowerCase k := v]> h.
Definition Headers_delete (k : string) (h : Headers) : Headers := delete (toLowerCase k) h.
Definition Headers_get (h : Headers) (k : string) : option string := h !! toLowerCase k.
Definition Headers_append (k v : string) (h : Headers) : Headers :=
  match h !! toLowerCase k with
  | Some old => <[toLowerCase k := old ++ ", " ++ v]> h
  | None => <[toLowerCase k := v]> h
  end.

(** [new Headers({ k: v, ... })]: every entry of the record is appended. *)
Definition Headers_of (init : list (string * string)) : Headers :=
  fold_left (fun h kv => Headers_append (fst kv) (snd kv) h) init ∅.

(** [new Headers(h)]: a copy. *)
Definition Headers_copy (h : Headers) : Headers := h.

(** [x || ''] for the [string | null] that [Headers.get] returns. *)
Definition or_empty (x : option string) : string := default "" x.

(** ** URL *)

Record URL := {
  protocol : string;
  host : string;
  pathname : string;
  searchParams : list (string * string)
}.

(** [new URL(`https://${h}${p}`)] for a host name [h] and the [pathname]
    [p] of a parsed URL: the parser reads back scheme, host and path, and
    there is no query. *)
Definition URL_https (h p : string) : URL :=
  {| protocol := "https:"; host := h; pathname := p; searchParams := [] |}.

(** [u.searchParams.append(k, v)]. *)
Definition searchParams_append (k v : string) (u : URL) : URL :=
  {| protocol := protocol u; host := host u; pathname := pathname u;
     searchParams := searchParams u ++ [(k, v)] |}.

(** [src.searchParams.forEach((value, key) => { dst.searchParams.append(key, value) })]. *)
Definition copy_searchParams (src dst : URL) : URL :=
  fold_left (fun t kv => searchParams_append (fst kv) (snd kv) t) (searchParams src) dst.

(** The application/x-www-form-urlencoded serializer, on bytes. *)
Definition hex_digit (n : nat) : ascii :=
  if (n <? 10)%nat then ascii_of_nat (48 + n) else ascii_of_nat (55 + n).

Definition urlencode_byte (c : ascii) : string :=
  let n := nat_of_ascii c in
  if ((48 <=? n) && (n <=? 57) || (65 <=? n) && (n <=? 90) || (97 <=? n) && (n <=? 122)
      || (n =? 42) || (n =? 45) || (n =? 46) || (n =? 95))%nat%bool
  then String c EmptyString
  else if (n =? 32)%nat then "+"
  else String "%" (String (hex_digit (n / 16)) (String (hex_digit (n mod 16)) EmptyString)).

Fixpoint urlencode (s : string) : string :=
  match s with
  | EmptyString => EmptyString
  | String c s' => urlencode_byte c ++ urlencode s'
  end.

Definition serialize_pair (kv : string * string) : string :=
  urlencode (fst kv) ++ "=" ++ urlencode (snd kv).

Fixpoint serialize_params (l : list (string * string)) : string :=
  match l with
  | [] => ""
  | [kv] => serialize_pair kv
  | kv :: rest => serialize_pair kv ++ "&" ++ serialize_params rest
  end.

(** [u.toString()]. *)
Definition URL_toString (u : URL) : string :=
  protocol u ++ "//" ++ host u ++ pathname u ++
  match searchParams u with
  | [] => ""
  | l => "?" ++ serialize_params l
  end.

(** ** Bodies, requests, responses *)

Inductive Body : Type :=
| Text (s : string)        (* a string *)
| JSONText (v : JSON)      (* a JSON text, held as the value it denotes *)
| Stream (content : string). (* a [ReadableStream] *)

(** [JSON.stringify(v)]. *)
Definition JSON_stringify (v : JSON) : Body := JSONText (written v).

Module Request.

(** [url] is held parsed: [new URL(request.url)] reads it, and
    [new Request(u.toString(), ...)] stores [u]. *)
Record t := {
  url : URL;
  method : string;
  headers : Headers;
  body : option Body
}.

(** [request.clone()]. *)
Definition clone (r : t) : t := r.

End Request.

(** CONNECT, TRACE and TRACK, in any letter case. *)
Definition forbidden_method (method : string) : bool :=
  let m := toUpperCase method in
  String.eqb m "CONNECT" || String.eqb m "TRACE" || String.eqb m "TRACK".

(** DELETE, GET, HEAD, OPTIONS, POST and PUT are upper-cased; any other
    method is kept as it is. *)
Definition normalize_method (method : string) : string :=
  let m := toUpperCase method in
  if String.eqb m "DELETE" || String.eqb m "GET" || String.eqb m "HEAD"
     || String.eqb m "OPTIONS" || String.eqb m "POST" || String.eqb m "PUT"
  then m else method.

Definition get_or_head (method : string) : bool :=
  String.eqb method "GET" || String.eqb method "HEAD".

(** [new Request(url, { method, headers, body })], after the Fetch
    standard, for a method that is an HTTP token (as the method of an
    inbound request is): a forbidden method is a [TypeError], the method
    is normalized, and a body with GET or HEAD is a [TypeError]. *)
Definition Request_new (url : URL) (method : string) (headers : Headers)
    (body : option Body) : Completion Request.t :=
  if forbidden_method method then
    Throw (TypeError "Method is forbidden")
  else
    let method := normalize_method method in
    if get_or_head method && match body with Some _ => true | None => false end then
      Throw (TypeError "Request with GET/HEAD method cannot have body")
    else
      Normal {| Request.url := url; Request.method := method;
                Request.headers := headers; Request.body := body |}.

Module Response.

Record t := {
  status : Z;
  statusText : string;
  headers : Headers;
  body : option Body
}.

End Response.

Definition null_body_status (s : Z) : bool :=
  (s =? 101) || (s =? 103) || (s =? 204) || (s =? 205) || (s =? 304).

(** [new Response(body, { status, statusText, headers })], after the Fetch
    standard: a status outside 200..599 is a [RangeError], a body with a
    null-body status a [TypeError], and a string body without a declared
    type gets [text/plain]. *)
Definition Response_new (body : option Body) (status : Z) (statusText : string)
    (headers : Headers) : Completion Response.t :=
  if negb ((200 <=? status) && (status <=? 599)) then
    Throw (RangeError "The status provided is outside the range [200, 599]")
  else if match body with Some _ => null_body_status status | None => false end then
    Throw (TypeError "Response with null body status cannot have body")
  else
    let headers :=
      match body with
      | Some (Text _) | Some (JSONText _) =>
          match headers !! "content-type" with
          | Some _ => headers
          | None => <["content-type" := "text/plain;charset=UTF-8"]> headers
          end
      | _ => headers
      end in
    Normal {| Response.status := status; Response.statusText := statusText;
              Response.headers := headers; Response.body := body |}.

(** ** What the host supplies

    The outcome of reading a request body to its end and parsing it, and
    the outcome of an upstream call. *)
Record Runtime := {
  rt_json : option Body -> Completion JSON;
  rt_fetch : Request.t -> Completion Response.t
}.

(** ** Effects: the requests sent upstream and the console *)

Record World := {
  fetched : list Request.t;
  console : list (string * Error)
}.

Definition world0 : World := {| fetched := []; console := [] |}.

Definition M (A : Type) : Type := World -> Completion A * World.

Definition ret {A} (a : A) : M A := fun w => (Normal a, w).
Definition throw {A} (e : Error) : M A := fun w => (Throw e, w).
Definition lift {A} (c : Completion A) : M A := fun w => (c, w).

Definition bind {A B} (m : M A) (k : A -> M B) : M B :=
  fun w =>
    match m w with
    | (Normal a, w') => k a w'
    | (Throw e, w') => (Throw e, w')
    end.

(** [try { m } catch (error) { h(error) }]. *)
Definition try_catch {A} (m : M A) (h : Error -> M A) : M A :=
  fun w =>
    match m w with
    | (Normal a, w') => (Normal a, w')
    | (Throw e, w') => h e w'
    end.

(** The completion of [m], for a [catch] that returns from the function. *)
Definition attempt {A} (m : M A) : M (Completion A) :=
  fun w => let (c, w') := m w in (Normal c, w').

(** [await fetch(request)]. *)
Definition fetch (rt : Runtime) (request : Request.t) : M Response.t :=
  fun w => (rt_fetch rt request,
            {| fetched := fetched w ++ [request]; console := console w |}).

(** [await request.json()]. *)
Definition Request_json (rt : Runtime) (request : Request.t) : M JSON :=
  lift (rt_json rt (Request.body request)).

(** [console.error(label, error)]: the label and the Error object given
    to the console, which prints them as it sees fit. *)
Definition console_error (label : string) (error : Error) : M unit :=
  fun w => (Normal tt,
            {| fetched := fetched w; console := console w ++ [(label, error)] |}).

End JS.

Notation "'let*' x ':=' m 'in' k" := (JS.bind m (fun x => k))
  (at level 10, x name, m at level 100, k at level 200).

(* ===================================================================== *)
(** * src/jimeng2opendraw.ts *)
(* ===================================================================== *)

Module Jimeng.
Import JS.

Definition TARGET_API_HOST : string := "sejktjafstpl.us-east-1.clawcloudrun.com".
Definition IMAGE_GENERATION_PATH : string := "/v1/images/generations".

Definition SUPPORTED_IMAGE_PARAMS : list string :=
  [ "model"; "prompt"; "negativePrompt"; "width"; "height"; "sample_strength" ].

Definition PREFLIGHT_CORS_HEADERS : list (string * string) :=
  [ ("Access-Control-Allow-Origin", "*");
    ("Access-Control-Allow-Methods", "GET, POST, PUT, DELETE, OPTIONS");
    ("Access-Control-Allow-Headers", "Content-Type, Authorization, X-Requested-With");
    ("Access-Control-Max-Age", "86400") ].

Definition SUCCESS_CORS_HEADERS : list (string * string) :=
  [ ("Access-Control-Allow-Origin", "*") ].

Definition handleCorsPreflight : Completion Response.t :=
  Response_new None 204 "" (Headers_of PREFLIGHT_CORS_HEADERS).

(** The loop sets every entry of [SUCCESS_CORS_HEADERS] on [headers]. *)
Definition addCorsHeaders (headers : Headers) : Headers :=
  fold_left (fun h kv => Headers_set (fst kv) (snd kv) h) SUCCESS_CORS_HEADERS headers.

(** [new Headers({ 'Content-Type': 'application/json' })] followed by
    [addCorsHeaders] and [new Response(JSON.stringify({ error }), ...)]:
    the shape shared by all JSON error replies. *)
Definition error_response (status : Z) (error : string) : Completion Response.t :=
  let headers := Headers_of [ ("Content-Type", "application/json") ] in
  let headers := addCorsHeaders headers in
  Response_new (Some (JSON_stringify (JObj {[ "error" := JStr error ]}))) status "" headers.

(** The filtering loop over the allow-list (lines 92-97). *)
Fixpoint filterParams (params : list string) (originalBody : JSON)
    (filteredBody : gmap string JSON) : Completion (gmap string JSON) :=
  match params with
  | [] => Normal filteredBody
  | param :: rest =>
      match get originalBody param with
      | Throw e => Throw e
      | Normal None => filterParams rest originalBody filteredBody
      | Normal (Some v) => filterParams rest originalBody (<[param := v]> filteredBody)
      end
  end.

(** The defaults (lines 100-104), in the order they are written. *)
Definition addDefaults (filteredBody : gmap string JSON) : gmap string JSON :=
  let filteredBody :=
    if negb (truthy (filteredBody !! "model"))
    then <["model" := JStr "jimeng-3.0"]> filteredBody else filteredBody in
  let filteredBody :=
    if negb (truthy (filteredBody !! "negativePrompt"))
    then <["negativePrompt" := JStr ""]> filteredBody else filteredBody in
  let filteredBody :=
    if negb (truthy (filteredBody !! "width"))
    then <["width" := JNum 1024]> filteredBody else filteredBody in
  let filteredBody :=
    if negb (truthy (filteredBody !! "height"))
    then <["height" := JNum 1024]> filteredBody else filteredBody in
  match filteredBody !! "sample_strength" with
  | None => <["sample_strength" := JNum (1 # 2)]> filteredBody
  | Some _ => filteredBody
  end.

Section WithRuntime.
Variable rt : Runtime.

Definition handleImageGenerationRequest (request : Request.t) (targetUrl : URL)
    : M Response.t :=
  let contentType := or_empty (Headers_get (Request.headers request) "Content-Type") in
  if negb (includes "application/json" contentType) then
    lift (error_response 400 "Unsupported Content-Type. Please use application/json")
  else
    let* parsed := attempt (Request_json rt (Request.clone request)) in
    match parsed with
    | Throw _ => lift (error_response 400 "Invalid JSON body")
    | Normal originalBody =>
        let* prompt := lift (get originalBody "prompt") in
        if negb (truthy prompt) then
          lift (error_response 400 "Missing required parameter: prompt")
        else
          let* filteredBody := lift (filterParams SUPPORTED_IMAGE_PARAMS originalBody ∅) in
          let filteredBody := addDefaults filteredBody in
          let apiRequestHeaders :=
            Headers_of [ ("Content-Type", "application/json");
                         ("Authorization",
                          or_empty (Headers_get (Request.headers request) "Authorization")) ] in
          let* apiRequest :=
            lift (Request_new targetUrl "POST" apiRequestHeaders
                    (Some (JSON_stringify (JObj filteredBody)))) in
          try_catch
            (let* apiResponse := fetch rt apiRequest in
             let responseHeaders := Headers_copy (Response.headers apiResponse) in
             let responseHeaders := addCorsHeaders responseHeaders in
             let responseHeaders := Headers_set "Content-Type" "application/json" responseHeaders in
             lift (Response_new (Response.body apiResponse) (Response.status apiResponse)
                     (Response.statusText apiResponse) responseHeaders))
            (fun error =>
               let* _ := console_error "Error fetching from API:" error in
               lift (error_response 502 ("Error fetching from API: " ++ message error)))
    end.

(** The body of the [try] block of [handleRequest]. *)
Definition handleRequest_try (request : Request.t) : M Response.t :=
  let url := Request.url request in
  if String.eqb (pathname url) IMAGE_GENERATION_PATH && String.eqb (Request.method request) "POST" then
    let targetUrl := URL_https TARGET_API_HOST (pathname url) in
    let targetUrl := copy_searchParams url targetUrl in
    handleImageGenerationRequest request targetUrl
  else
    let headers := Headers_of [ ("Content-Type", "text/plain") ] in
    let headers := addCorsHeaders headers in
    lift (Response_new (Some (Text "Not Found")) 404 "" headers).

Definition handleRequest (request : Request.t) : M Response.t :=
  if String.eqb (Request.method request) "OPTIONS" then
    lift handleCorsPreflight
  else
    try_catch (handleRequest_try request)
      (fun error =>
         let* _ := console_error "Proxy error:" error in
         lift (error_response 500 ("Internal Server Error: " ++ message error))).

End WithRuntime.
End Jimeng.

(* ===================================================================== *)
(** * The xAI proxy *)
(* ===================================================================== *)

Module XAI.
Import JS.

Definition XAI_API_HOST : string := "api.x.ai".
Definition IMAGE_GENERATION_PATH : string := "/v1/images/generations".

Definition SUPPORTED_IMAGE_PARAMS : list string :=
  [ "model"; "prompt"; "n"; "response_format" ].

Definition PREFLIGHT_CORS_HEADERS : list (string * string) :=
  [ ("Access-Control-Allow-Origin", "*");
    ("Access-Control-Allow-Methods", "GET, POST, PUT, DELETE, OPTIONS");
    ("Access-Control-Allow-Headers", "Content-Type, Authorization, X-Requested-With");
    ("Access-Control-Max-Age", "86400") ].

Definition SUCCESS_CORS_HEADERS : list (string * string) :=
  [ ("Access-Control-Allow-Origin", "*") ].

Definition handleCorsPreflight : Completion Response.t :=
  Response_new None 204 "" (Headers_of PREFLIGHT_CORS_HEADERS).

Definition addCorsHeaders (headers : Headers) : Headers :=
  fold_left (fun h kv => Headers_set (fst kv) (snd kv) h) SUCCESS_CORS_HEADERS headers.

(** The shape shared by all JSON error replies of this file. *)
Definition error_response (status : Z) (error : string) : Completion Response.t :=
  let headers := Headers_of [ ("Content-Type", "application/json") ] in
  let headers := addCorsHeaders headers in
  Response_new (Some (JSON_stringify (JObj {[ "error" := JStr error ]}))) status "" headers.

(** The filtering loop over the allow-list (lines 74-79). *)
Fixpoint filterParams (params : list string) (originalBody : JSON)
    (filteredBody : gmap string JSON) : Completion (gmap string JSON) :=
  match params with
  | [] => Normal filteredBody
  | param :: rest =>
      match get originalBody param with
      | Throw e => Throw e
      | Normal None => filterParams rest originalBody filteredBody
      | Normal (Some v) => filterParams rest originalBody (<[param := v]> filteredBody)
      end
  end.

Section WithRuntime.
Variable rt : Runtime.

Definition handleImageGenerationRequest (request : Request.t) (targetUrl : URL)
    : M Response.t :=
  let contentType := or_empty (Headers_get (Request.headers request) "Content-Type") in
  if negb (includes "application/json" contentType) then
    lift (error_response 400 "Unsupported Content-Type. Please use application/json")
  else
    let* parsed := attempt (Request_json rt (Request.clone request)) in
    match parsed with
    | Throw _ => lift (error_response 400 "Invalid JSON body")
    | Normal originalBody =>
        let* filteredBody := lift (filterParams SUPPORTED_IMAGE_PARAMS originalBody ∅) in
        let xaiRequestHeaders :=
          Headers_of [ ("Content-Type", "application/json");
                       ("Authorization",
                        or_empty (Headers_get (Request.headers request) "Authorization")) ] in
        let* xaiRequest :=
          lift (Request_new targetUrl "POST" xaiRequestHeaders
                  (Some (JSON_stringify (JObj filteredBody)))) in
        try_catch
          (let* xaiResponse := fetch rt xaiRequest in
           let responseHeaders := Headers_copy (Response.headers xaiResponse) in
           let responseHeaders := addCorsHeaders responseHeaders in
           let responseHeaders := Headers_set "Content-Type" "application/json" responseHeaders in
           lift (Response_new (Response.body xaiResponse) (Response.status xaiResponse)
                   (Response.statusText xaiResponse) responseHeaders))
          (fun error =>
             let* _ := console_error "Error fetching from xAI API:" error in
             lift (error_response 502 ("Error fetching from xAI API: " ++ message error)))
    end.

(** The generic proxy at the end of the [try] block (lines 145-174). *)
Definition forward (request : Request.t) (targetUrl : URL) : M Response.t :=
  let xaiRequestHeaders := Headers_copy (Request.headers request) in
  let xaiRequestHeaders := Headers_set "Host" XAI_API_HOST xaiRequestHeaders in
  let xaiRequestHeaders := Headers_delete "cf-connecting-ip" xaiRequestHeaders in
  let xaiRequestHeaders := Headers_delete "cf-ipcountry" xaiRequestHeaders in
  let xaiRequestHeaders := Headers_delete "cf-ray" xaiRequestHeaders in
  let xaiRequestHeaders := Headers_delete "cf-visitor" xaiRequestHeaders in
  let body :=
    if negb (String.eqb (Request.method request) "GET")
       && negb (String.eqb (Request.method request) "HEAD")
    then Request.body request else None in
  let* xaiRequest :=
    lift (Request_new targetUrl (Request.method request) xaiRequestHeaders body) in
  let* xaiResponse := fetch rt xaiRequest in
  let responseHeaders := Headers_copy (Response.headers xaiResponse) in
  let responseHeaders := addCorsHeaders responseHeaders in
  lift (Response_new (Response.body xaiResponse) (Response.status xaiResponse)
          (Response.statusText xaiResponse) responseHeaders).

(** The body of the [try] block of [handleRequest]. *)
Definition handleRequest_try (request : Request.t) : M Response.t :=
  let url := Request.url request in
  if negb (startsWith "/v1/" (pathname url)) then
    let headers := Headers_of [ ("Content-Type", "text/plain") ] in
    let headers := addCorsHeaders headers in
    lift (Response_new (Some (Text "Not Found")) 404 "" headers)
  else
    let targetUrl := URL_https XAI_API_HOST (pathname url) in
    let targetUrl := copy_searchParams url targetUrl in
    if String.eqb (pathname url) IMAGE_GENERATION_PATH && String.eqb (Request.method request) "POST" then
      handleImageGenerationRequest request targetUrl
    else
      forward request targetUrl.

Definition handleRequest (request : Request.t) : M Response.t :=
  if String.eqb (Request.method request) "OPTIONS" then
    lift handleCorsPreflight
  else
    try_catch (handleRequest_try request)
      (fun error =>
         let* _ := console_error "Proxy error:" error in
         lift (error_response 500 ("Internal Server Error: " ++ message error))).

End WithRuntime.
End XAI.

(* ===================================================================== *)
(** * Both deployments *)
(* ===================================================================== *)

Import JS.

Inductive Variant : Type := Xai | JimengV.

Definition handleRequest (v : Variant) : Runtime -> Request.t -> M Response.t :=
  match v with
  | Xai => XAI.handleRequest
  | JimengV => Jimeng.handleRequest
  end.

Definition upstream_host (v : Variant) : string :=
  match v with
  | Xai => XAI.XAI_API_HOST
  | JimengV => Jimeng.TARGET_API_HOST
  end.

Definition allow_list (v : Variant) : list string :=
  match v with
  | Xai => XAI.SUPPORTED_IMAGE_PARAMS
  | JimengV => Jimeng.SUPPORTED_IMAGE_PARAMS
  end.

Definition handleRequest_try (v : Variant) : Runtime -> Request.t -> M Response.t :=
  match v with
  | Xai => XAI.handleRequest_try
  | JimengV => Jimeng.handleRequest_try
  end.

(** The label each deployment puts in front of an upstream failure. *)
Definition fetch_error_label (v : Variant) : string :=
  match v with
  | Xai => "Error fetching from xAI API: "
  | JimengV => "Error fetching from API: "
  end.

(** A response carries the CORS header. *)
Definition cors (r : Response.t) : Prop :=
  Headers_get (Response.headers r) "Access-Control-Allow-Origin" = Some "*".

(** The body [JSON.stringify({ error: msg })]. *)
Definition error_body (msg : string) : option Body :=
  Some (JSON_stringify (JObj {[ "error" := JStr msg ]})).

(** The target every forwarded request is sent to. *)
Definition target_of (v : Variant) (request : Request.t) : URL :=
  {| protocol := "https:"; host := upstream_host v;
     pathname := pathname (Request.url request);
     searchParams := searchParams (Request.url request) |}.

(** The reply [error_response] builds. *)
Definition error_reply (status : Z) (msg : string) : Response.t :=
  {| Response.status := status; Response.statusText := "";
     Response.headers :=
       <["access-control-allow-origin" := "*"]>
         (<["content-type" := "application/json"]> (∅ : Headers));
     Response.body := error_body msg |}.

(** The 404 reply. *)
Definition not_found_reply : Response.t :=
  {| Response.status := 404; Response.statusText := "";
     Response.headers :=
       <["access-control-allow-origin" := "*"]>
         (<["content-type" := "text/plain"]> (∅ : Headers));
     Response.body := Some (Text "Not Found") |}.

(** The preflight reply. *)
Definition preflight_reply : Response.t :=
  {| Response.status := 204; Response.statusText := "";
     Response.headers :=
       list_to_map
         [ ("access-control-allow-origin", "*");
           ("access-control-allow-methods", "GET, POST, PUT, DELETE, OPTIONS");
           ("access-control-allow-headers", "Content-Type, Authorization, X-Requested-With");
           ("access-control-max-age", "86400") ];
     Response.body := None |}.

(** ** The defaults, line by line *)

(** One line of the defaults: [if (!fb[k]) fb[k] = d]. *)
Definition default_if_falsy (k : string) (d : JSON) (fb : gmap string JSON)
    : gmap string JSON :=
  if negb (truthy (fb !! k)) then <[k := d]> fb else fb.

(** The last line: [if (fb[k] === undefined) fb[k] = d]. *)
Definition default_if_undefined (k : string) (d : JSON) (fb : gmap string JSON)
    : gmap string JSON :=
  match fb !! k with
  | None => <[k := d]> fb
  | Some _ => fb
  end.

(** What a parsed body offers the filter: an object its own properties,
    a primitive or an array none of the names asked for. *)
Definition own_properties (v : JSON) : gmap string JSON :=
  match v with
  | JObj m => m
  | _ => ∅
  end.

(** ** Sample traffic *)

Definition image_url (query : list (string * string)) : URL :=
  {| protocol := "http:"; host := "localhost:8000";
     pathname := "/v1/images/generations"; searchParams := query |}.

(** [POST /v1/images/generations] with a JSON content type. *)
Definition image_request (query : list (string * string)) : Request.t :=
  {| Request.url := image_url query;
     Request.method := "POST";
     Request.headers :=
       Headers_of [ ("Content-Type", "application/json"); ("Authorization", "Bearer k") ];
     Request.body := Some (Stream "...") |}.

(** [GET /v1/models?a=1&a=2] arriving through an edge network. *)
Definition models_request : Request.t :=
  {| Request.url :=
       {| protocol := "http:"; host := "localhost:8000"; pathname := "/v1/models";
          searchParams := [ ("a", "1"); ("a", "2") ] |};
     Request.method := "GET";
     Request.headers :=
       Headers_of [ ("Host", "localhost:8000"); ("Authorization", "Bearer k");
                    ("CF-Ray", "8f1c"); ("CF-Connecting-IP", "203.0.113.7") ];
     Request.body := None |}.

(** [TRACE /v1/models]. *)
Definition trace_request : Request.t :=
  {| Request.url :=
       {| protocol := "http:"; host := "localhost:8000"; pathname := "/v1/models";
          searchParams := [] |};
     Request.method := "TRACE";
     Request.headers := Headers_of [ ("Host", "localhost:8000") ];
     Request.body := None |}.

Definition options_request : Request.t :=
  {| Request.url :=
       {| protocol := "http:"; host := "localhost:8000"; pathname := "/anything";
          searchParams := [] |};
     Request.method := "OPTIONS";
     Request.headers := ∅;
     Request.body := None |}.

Definition upstream_ok : Response.t :=
  {| Response.status := 200; Response.statusText := "OK";
     Response.headers := Headers_of [ ("Content-Type", "application/json") ];
     Response.body := Some (Stream "{}") |}.

(** A host on which the body parses as [parsed] and the upstream answers 200. *)
Definition rt_parsed (parsed : JSON) : Runtime :=
  {| rt_json := fun _ => Normal parsed;
     rt_fetch := fun _ => Normal upstream_ok |}.

(** A host on which the body parses as [parsed] and the connection to the
    upstream is reset. *)
Definition rt_reset (parsed : JSON) : Runtime :=
  {| rt_json := fun _ => Normal parsed;
     rt_fetch := fun _ => Throw (TypeError "connection reset") |}.

(** [POST /v1/images/generations] carrying a form, with a cookie. *)
Definition form_request : Request.t :=
  {| Request.url := image_url [];
     Request.method := "POST";
     Request.headers :=
       Headers_of [ ("Content-Type", "multipart/form-data"); ("Cookie", "sid=1") ];
     Request.body := Some (Stream "...") |}.

(** [GET /unknown]. *)
Definition unknown_request : Request.t :=
  {| Request.url :=
       {| protocol := "http:"; host := "localhost:8000"; pathname := "/unknown";
          searchParams := [] |};
     Request.method := "GET";
     Request.headers := ∅;
     Request.body := None |}.

(** A host on which the body does not parse. *)
Definition rt_bad_json : Runtime :=
  {| rt_json := fun _ =>
       Throw {| name := "SyntaxError"; message := "Unexpected end of JSON input" |};
     rt_fetch := fun _ => Normal upstream_ok |}.

(** The bodies sent upstream by a run from the empty world. *)
Definition forwarded_bodies (v : Variant) (rt : Runtime) (req : Request.t)
    : list (option Body) :=
  map Request.body (fetched (snd (handleRequest v rt req world0))).

(* ===================================================================== *)
(** * Facts about the platform *)
(* ===================================================================== *)

Section Platform.

Lemma prefix_refl (s : string) : String.prefix s s = true.
Proof.
  induction s as [| c s IH]; simpl; [reflexivity |].
  destruct (Ascii.ascii_dec c c); [exact IH | congruence].
Qed.

Lemma includes_self (s : string) : includes s s = true.
Proof. destruct s; cbn [includes]; rewrite prefix_refl; reflexivity. Qed.

(** A message is found in any text that ends with it. *)
Lemma includes_app (p m : string) : includes m (p ++ m) = true.
Proof.
  induction p as [| c p IH].
  - apply includes_self.
  - change (String c p ++ m) with (String c (p ++ m)).
    cbn [includes]. rewrite IH. apply orb_true_r.
Qed.

(** Copying search parameters one by one rebuilds the same list. *)
Lemma copy_searchParams_spec (src dst : URL) :
  copy_searchParams src dst =
  {| protocol := protocol dst; host := host dst; pathname := pathname dst;
     searchParams := searchParams dst ++ searchParams src |}.
Proof.
  unfold copy_searchParams.
  generalize (searchParams src) as l. intros l. revert dst.
  induction l as [| [k v] l IH]; intros dst; simpl.
  - rewrite app_nil_r. destruct dst; reflexivity.
  - rewrite IH. simpl. rewrite <- app_assoc. reflexivity.
Qed.

Lemma copy_into_https (h : string) (src : URL) :
  copy_searchParams src (URL_https h (pathname src)) =
  {| protocol := "https:"; host := h; pathname := pathname src;
     searchParams := searchParams src |}.
Proof. rewrite copy_searchParams_spec. reflexivity. Qed.

Lemma Response_new_inv body status statusText (headers : Headers) r :
  Response_new body status statusText headers = Normal r ->
  Response.status r = status /\ Response.statusText r = statusText /\
  Response.body r = body /\ 200 <= status <= 599 /\
  (forall k, k <> "content-type" -> Response.headers r !! k = headers !! k).
Proof.
  unfold Response_new.
  destruct ((200 <=? status) && (status <=? 599)) eqn:Hr; simpl; [| discriminate].
  destruct (match body with Some _ => null_body_status status | None => false end);
    [discriminate |].
  intros H. injection H as <-. simpl.
  apply andb_true_iff in Hr as [H1 H2].
  apply Z.leb_le in H1. apply Z.leb_le in H2.
  repeat split; try assumption.
  intros k Hk.
  destruct body as [[| |] |]; try reflexivity;
    (destruct (headers !! "content-type"); [reflexivity |];
     rewrite lookup_insert_ne; [reflexivity | congruence]).
Qed.

Lemma Response_new_cors body status statusText (headers : Headers) r :
  Response_new body status statusText headers = Normal r ->
  headers !! "access-control-allow-origin" = Some "*" ->
  cors r.
Proof.
  intros H Hh. apply Response_new_inv in H as (_ & _ & _ & _ & Hk).
  unfold cors, Headers_get. change (toLowerCase "Access-Control-Allow-Origin")
    with "access-control-allow-origin".
  rewrite Hk; [exact Hh | discriminate].
Qed.

Lemma Request_new_POST url (headers : Headers) body :
  Request_new url "POST" headers body =
    Normal {| Request.url := url; Request.method := "POST";
              Request.headers := headers; Request.body := body |}.
Proof. reflexivity. Qed.

Lemma Request_new_inv url method (headers : Headers) body o :
  Request_new url method headers body = Normal o ->
  o = {| Request.url := url; Request.method := normalize_method method;
         Request.headers := headers; Request.body := body |} /\
  forbidden_method method = false /\
  (get_or_head (normalize_method method) = true -> body = None).
Proof.
  unfold Request_new. destruct (forbidden_method method); [discriminate |].
  destruct (get_or_head (normalize_method method)); simpl.
  - destruct body; [discriminate |]. intros H. injection H as <-. auto.
  - intros H. injection H as <-. split; [reflexivity |]. split; [reflexivity |].
    discriminate.
Qed.

Lemma Request_new_accepts url method (headers : Headers) body :
  forbidden_method method = false ->
  (get_or_head (normalize_method method) = true -> body = None) ->
  Request_new url method headers body =
    Normal {| Request.url := url; Request.method := normalize_method method;
              Request.headers := headers; Request.body := body |}.
Proof.
  intros Hf Hb. unfold Request_new. rewrite Hf.
  destruct (get_or_head (normalize_method method)); [| reflexivity].
  rewrite (Hb eq_refl). reflexivity.
Qed.

(** Normalizing keeps an upper-case method, upper-cases the six standard
    ones, and yields GET or HEAD exactly for a spelling of these. *)
Lemma normalize_method_upper (method : string) :
  toUpperCase method = method -> normalize_method method = method.
Proof.
  intros H. unfold normalize_method. rewrite H.
  destruct (_ || _); reflexivity.
Qed.

Lemma normalize_method_standard (method : string) :
  toUpperCase method ∈ [ "DELETE"; "GET"; "HEAD"; "OPTIONS"; "POST"; "PUT" ] ->
  normalize_method method = toUpperCase method.
Proof.
  intros H. unfold normalize_method.
  repeat (apply elem_of_cons in H as [-> | H]); [reflexivity .. | inversion H].
Qed.

Lemma get_or_head_normalize (method : string) :
  get_or_head (normalize_method method) = get_or_head (toUpperCase method).
Proof.
  unfold normalize_method.
  destruct (String.eqb (toUpperCase method) "DELETE"
            || String.eqb (toUpperCase method) "GET"
            || String.eqb (toUpperCase method) "HEAD"
            || String.eqb (toUpperCase method) "OPTIONS"
            || String.eqb (toUpperCase method) "POST"
            || String.eqb (toUpperCase method) "PUT") eqn:E; [reflexivity |].
  repeat (apply orb_false_iff in E as [E ?]).
  unfold get_or_head.
  destruct (String.eqb method "GET") eqn:Hg.
  { apply String.eqb_eq in Hg. subst method. discriminate. }
  destruct (String.eqb method "HEAD") eqn:Hh.
  { apply String.eqb_eq in Hh. subst method. discriminate. }
  simpl. symmetry. apply orb_false_iff. split; assumption.
Qed.

Lemma Request_new_forbidden url method (headers : Headers) body :
  forbidden_method method = true ->
  Request_new url method headers body = Throw (TypeError "Method is forbidden").
Proof. intros Hf. unfold Request_new. rewrite Hf. reflexivity. Qed.

End Platform.

Arguments Request_new : simpl never.

(* ===================================================================== *)
(** * Facts shared by the two handlers *)
(* ===================================================================== *)

Section Shared.

Lemma same_error_response : XAI.error_response = Jimeng.error_response.
Proof. reflexivity. Qed.

Lemma same_addCorsHeaders : XAI.addCorsHeaders = Jimeng.addCorsHeaders.
Proof. reflexivity. Qed.

Lemma same_handleCorsPreflight : XAI.handleCorsPreflight = Jimeng.handleCorsPreflight.
Proof. reflexivity. Qed.

Lemma addCorsHeaders_eq (h : Headers) :
  Jimeng.addCorsHeaders h = <["access-control-allow-origin" := "*"]> h.
Proof. reflexivity. Qed.

Lemma addCorsHeaders_idempotent (h : Headers) :
  Jimeng.addCorsHeaders (Jimeng.addCorsHeaders h) = Jimeng.addCorsHeaders h.
Proof. rewrite !addCorsHeaders_eq. apply insert_insert_eq. Qed.

Lemma error_response_eq (status : Z) (msg : string) :
  200 <= status <= 599 -> null_body_status status = false ->
  Jimeng.error_response status msg = Normal (error_reply status msg).
Proof.
  intros [H1 H2] Hn.
  unfold Jimeng.error_response, Response_new, JSON_stringify.
  apply Z.leb_le in H1. apply Z.leb_le in H2. rewrite H1, H2, Hn. simpl.
  reflexivity.
Qed.

Lemma handleCorsPreflight_eq : Jimeng.handleCorsPreflight = Normal preflight_reply.
Proof. vm_compute. reflexivity. Qed.

Lemma not_found_eq :
  Response_new (Some (Text "Not Found")) 404 ""
    (Jimeng.addCorsHeaders (Headers_of [ ("Content-Type", "text/plain") ]))
  = Normal not_found_reply.
Proof. vm_compute. reflexivity. Qed.

Lemma cors_error_reply status msg : cors (error_reply status msg).
Proof. reflexivity. Qed.

Lemma cors_not_found : cors not_found_reply.
Proof. reflexivity. Qed.

Lemma cors_preflight : cors preflight_reply.
Proof. reflexivity. Qed.

End Shared.

(* ===================================================================== *)
(** * Running the handlers *)
(* ===================================================================== *)

Ltac js_unfold :=
  unfold Request_json, attempt, try_catch, bind, lift, fetch, console_error,
    Request.clone, Headers_copy.

Ltac known_replies :=
  rewrite ?Request_new_POST in *;
  rewrite ?error_response_eq in * by (first [lia | reflexivity]).

(** A request the constructor accepted is the record of its arguments. *)
Ltac request_built :=
  repeat match goal with
         | H : Request_new _ _ _ _ = Normal _ |- _ =>
             apply Request_new_inv in H as (-> & ? & ?)
         end.

(** Split on every test and every outcome the handler inspects. *)
Ltac js_cases :=
  repeat (known_replies; case_match; simplify_eq); known_replies; simplify_eq;
  request_built.

Lemma app_same_nil {A} (l s : list A) : l = (l ++ s)%list -> s = [].
Proof.
  intros H. rewrite <- (app_nil_r l) in H at 1.
  apply app_inv_head in H. congruence.
Qed.

Lemma relay_headers_cors (h : Headers) :
  Headers_set "Content-Type" "application/json" (Jimeng.addCorsHeaders h)
    !! "access-control-allow-origin" = Some "*".
Proof.
  unfold Headers_set. rewrite addCorsHeaders_eq.
  rewrite lookup_insert_ne by discriminate. apply lookup_insert_eq.
Qed.

Lemma forward_headers_cors (h : Headers) :
  Jimeng.addCorsHeaders h !! "access-control-allow-origin" = Some "*".
Proof. rewrite addCorsHeaders_eq. apply lookup_insert_eq. Qed.

Ltac cors_done :=
  first [ apply cors_error_reply | apply cors_not_found | apply cors_preflight
        | eapply Response_new_cors;
          [ eassumption | first [ apply relay_headers_cors | apply forward_headers_cors ] ] ].

(** ** The filtering loop *)

Section Filter.

Lemma same_filterParams : XAI.filterParams = Jimeng.filterParams.
Proof. reflexivity. Qed.

(** On an object the loop never throws, and what it leaves under a name
    is the parsed value when the name is on the list, the previous
    content otherwise. *)
Lemma filterParams_object params (m acc : gmap string JSON) :
  exists fb,
    Jimeng.filterParams params (JObj m) acc = Normal fb /\
    forall k, fb !! k =
      if decide (k ∈ params)
      then match m !! k with Some x => Some x | None => acc !! k end
      else acc !! k.
Proof.
  revert acc. induction params as [| p params IH]; intros acc; simpl.
  - exists acc. split; [reflexivity |]. intros k.
    destruct (decide (k ∈ [])) as [Hk | _]; [inversion Hk | reflexivity].
  - destruct (m !! p) as [x |] eqn:Hp.
    + destruct (IH (<[p := x]> acc)) as (fb & -> & Hfb).
      exists fb. split; [reflexivity |]. intros k. rewrite Hfb.
      destruct (decide (k = p)) as [-> | Hne].
      * rewrite Hp, lookup_insert_eq.
        repeat case_decide; try reflexivity; set_solver.
      * rewrite lookup_insert_ne by congruence.
        repeat case_decide; try reflexivity; set_solver.
    + destruct (IH acc) as (fb & -> & Hfb).
      exists fb. split; [reflexivity |]. intros k. rewrite Hfb.
      destruct (decide (k = p)) as [-> | Hne].
      * rewrite Hp. repeat case_decide; try reflexivity; set_solver.
      * repeat case_decide; try reflexivity; set_solver.
Qed.

Lemma filterParams_from_empty params (m : gmap string JSON) :
  exists fb,
    Jimeng.filterParams params (JObj m) ∅ = Normal fb /\
    forall k, fb !! k = if decide (k ∈ params) then m !! k else None.
Proof.
  destruct (filterParams_object params m ∅) as (fb & Hfb & Hk).
  exists fb. split; [exact Hfb |]. intros k. rewrite Hk.
  case_decide; [| apply lookup_empty].
  destruct (m !! k); [reflexivity | apply lookup_empty].
Qed.

(** ** The defaults *)

Lemma addDefaults_steps (fb : gmap string JSON) :
  Jimeng.addDefaults fb =
  default_if_undefined "sample_strength" (JNum (1 # 2))
    (default_if_falsy "height" (JNum 1024)
       (default_if_falsy "width" (JNum 1024)
          (default_if_falsy "negativePrompt" (JStr "")
             (default_if_falsy "model" (JStr "jimeng-3.0") fb)))).
Proof. reflexivity. Qed.

Lemma default_if_falsy_same k d (fb : gmap string JSON) :
  default_if_falsy k d fb !! k = if truthy (fb !! k) then fb !! k else Some d.
Proof.
  unfold default_if_falsy. destruct (truthy (fb !! k)); simpl;
    [reflexivity | apply lookup_insert_eq].
Qed.

Lemma default_if_falsy_other k d (fb : gmap string JSON) k' :
  k' <> k -> default_if_falsy k d fb !! k' = fb !! k'.
Proof.
  intros Hne. unfold default_if_falsy. destruct (negb (truthy (fb !! k)));
    [apply lookup_insert_ne; congruence | reflexivity].
Qed.

Lemma default_if_undefined_same k d (fb : gmap string JSON) :
  default_if_undefined k d fb !! k =
  match fb !! k with Some x => Some x | None => Some d end.
Proof.
  unfold default_if_undefined. destruct (fb !! k) eqn:H;
    [exact H | apply lookup_insert_eq].
Qed.

Lemma default_if_undefined_other k d (fb : gmap string JSON) k' :
  k' <> k -> default_if_undefined k d fb !! k' = fb !! k'.
Proof.
  intros Hne. unfold default_if_undefined. destruct (fb !! k);
    [reflexivity | apply lookup_insert_ne; congruence].
Qed.

Ltac defaults_lookup :=
  rewrite addDefaults_steps;
  rewrite ?default_if_undefined_other by congruence;
  rewrite ?default_if_falsy_other by congruence.

Lemma addDefaults_model (fb : gmap string JSON) :
  Jimeng.addDefaults fb !! "model" =
  if truthy (fb !! "model") then fb !! "model" else Some (JStr "jimeng-3.0").
Proof. defaults_lookup. apply default_if_falsy_same. Qed.

Lemma addDefaults_negativePrompt (fb : gmap string JSON) :
  Jimeng.addDefaults fb !! "negativePrompt" =
  if truthy (fb !! "negativePrompt") then fb !! "negativePrompt" else Some (JStr "").
Proof.
  defaults_lookup. rewrite default_if_falsy_same.
  rewrite default_if_falsy_other by congruence. reflexivity.
Qed.

Lemma addDefaults_width (fb : gmap string JSON) :
  Jimeng.addDefaults fb !! "width" =
  if truthy (fb !! "width") then fb !! "width" else Some (JNum 1024).
Proof.
  defaults_lookup. rewrite default_if_falsy_same.
  rewrite !default_if_falsy_other by congruence. reflexivity.
Qed.

Lemma addDefaults_height (fb : gmap string JSON) :
  Jimeng.addDefaults fb !! "height" =
  if truthy (fb !! "height") then fb !! "height" else Some (JNum 1024).
Proof.
  defaults_lookup. rewrite default_if_falsy_same.
  rewrite !default_if_falsy_other by congruence. reflexivity.
Qed.

Lemma addDefaults_sample_strength (fb : gmap string JSON) :
  Jimeng.addDefaults fb !! "sample_strength" =
  match fb !! "sample_strength" with
  | Some x => Some x
  | None => Some (JNum (1 # 2))
  end.
Proof.
  rewrite addDefaults_steps, default_if_undefined_same.
  rewrite !default_if_falsy_other by congruence. reflexivity.
Qed.

(** Names without a default are left as the filter set them. *)
Lemma addDefaults_other (fb : gmap string JSON) (k : string) :
  k ∉ ["model"; "negativePrompt"; "width"; "height"; "sample_strength"] ->
  Jimeng.addDefaults fb !! k = fb !! k.
Proof.
  intros Hk.
  assert (k <> "model" /\ k <> "negativePrompt" /\ k <> "width" /\ k <> "height"
          /\ k <> "sample_strength") as (? & ? & ? & ? & ?)
    by (repeat split; intros ->; apply Hk; set_solver).
  rewrite addDefaults_steps.
  rewrite default_if_undefined_other by assumption.
  rewrite !default_if_falsy_other by assumption. reflexivity.
Qed.

End Filter.

Arguments Jimeng.filterParams : simpl never.
Arguments XAI.filterParams : simpl never.
Arguments Jimeng.addDefaults : simpl never.

Section Runs.
Variable rt : Runtime.

(** ** Every run ends in a response with the CORS header *)

Lemma jimeng_good req w :
  exists r w', Jimeng.handleRequest rt req w = (Normal r, w') /\ cors r.
Proof.
  unfold Jimeng.handleRequest, Jimeng.handleRequest_try,
    Jimeng.handleImageGenerationRequest.
  js_unfold. rewrite handleCorsPreflight_eq, not_found_eq.
  js_cases; (eexists _, _; split; [reflexivity | cors_done]).
Qed.

Lemma xai_good req w :
  exists r w', XAI.handleRequest rt req w = (Normal r, w') /\ cors r.
Proof.
  unfold XAI.handleRequest, XAI.handleRequest_try, XAI.forward,
    XAI.handleImageGenerationRequest.
  js_unfold. rewrite same_handleCorsPreflight, handleCorsPreflight_eq.
  rewrite same_addCorsHeaders, same_error_response, not_found_eq.
  js_cases; (eexists _, _; split; [reflexivity | cors_done]).
Qed.

Lemma handleRequest_good v req w :
  exists r w', handleRequest v rt req w = (Normal r, w') /\ cors r.
Proof. destruct v; [apply xai_good | apply jimeng_good]. Qed.

(** ** The preflight *)

Lemma handleRequest_options v req w :
  Request.method req = "OPTIONS" ->
  handleRequest v rt req w = (Normal preflight_reply, w).
Proof.
  intros H.
  destruct v; simpl; unfold XAI.handleRequest, Jimeng.handleRequest; rewrite H; simpl;
    unfold lift; rewrite ?same_handleCorsPreflight, handleCorsPreflight_eq; reflexivity.
Qed.

(** ** The outer [catch] *)

Lemma handleRequest_catch v req w e w1 :
  Request.method req <> "OPTIONS" ->
  handleRequest_try v rt req w = (Throw e, w1) ->
  handleRequest v rt req w =
    (Normal (error_reply 500 ("Internal Server Error: " ++ message e)),
     {| fetched := fetched w1;
        console := (console w1 ++ [("Proxy error:", e)])%list |}).
Proof.
  intros Hm Ht.
  apply String.eqb_neq in Hm.
  destruct v; simpl in *; unfold XAI.handleRequest, Jimeng.handleRequest; rewrite Hm;
    js_unfold; rewrite Ht; rewrite ?same_error_response;
    rewrite error_response_eq by (first [lia | reflexivity]); reflexivity.
Qed.

(** ** What is sent upstream *)

Lemma handleRequest_sent v req w :
  exists sent,
    fetched (snd (handleRequest v rt req w)) = (fetched w ++ sent)%list /\
    Forall (fun o => Request.url o = target_of v req) sent.
Proof.
  destruct v; simpl;
    unfold XAI.handleRequest, XAI.handleRequest_try, XAI.forward,
      XAI.handleImageGenerationRequest,
      Jimeng.handleRequest, Jimeng.handleRequest_try,
      Jimeng.handleImageGenerationRequest;
    js_unfold;
    rewrite ?same_handleCorsPreflight, ?same_addCorsHeaders, ?same_error_response;
    rewrite handleCorsPreflight_eq, not_found_eq;
    js_cases; simpl;
    first [ exists []; split; [rewrite app_nil_r; reflexivity | constructor]
          | eexists [_]; split;
            [ reflexivity
            | repeat constructor; simpl; apply copy_into_https ] ].
Qed.

(** ** An upstream failure on the image route *)

Lemma image_fetch_failure v req w sent o e :
  Request.method req = "POST" ->
  pathname (Request.url req) = "/v1/images/generations" ->
  fetched (snd (handleRequest v rt req w)) = (fetched w ++ sent)%list ->
  In o sent ->
  rt_fetch rt o = Throw e ->
  fst (handleRequest v rt req w) =
    Normal (error_reply 502 (fetch_error_label v ++ message e)).
Proof.
  intros Hm Hp Hs Hin Hf. revert Hs.
  destruct v; simpl;
    unfold XAI.handleRequest, XAI.handleRequest_try, XAI.forward,
      XAI.handleImageGenerationRequest,
      Jimeng.handleRequest, Jimeng.handleRequest_try,
      Jimeng.handleImageGenerationRequest;
    rewrite Hm, Hp; simpl;
    js_unfold;
    rewrite ?same_addCorsHeaders, ?same_error_response;
    js_cases; simpl; intros Hs;
    try (apply app_same_nil in Hs; subst sent; contradiction);
    apply app_inv_head in Hs; subst sent;
    destruct Hin as [<- | []]; congruence.
Qed.

(** ** The image route, when the body is an object *)

Lemma jimeng_dispatch req w (m : gmap string JSON) :
  Request.method req = "POST" ->
  pathname (Request.url req) = "/v1/images/generations" ->
  includes "application/json"
    (or_empty (Headers_get (Request.headers req) "Content-Type")) = true ->
  rt_json rt (Request.body req) = Normal (JObj m) ->
  truthy (m !! "prompt") = true ->
  exists fb,
    (forall k, fb !! k = if decide (k ∈ Jimeng.SUPPORTED_IMAGE_PARAMS) then m !! k else None) /\
    fetched (snd (Jimeng.handleRequest rt req w)) =
      (fetched w ++
       [ {| Request.url := target_of JimengV req;
            Request.method := "POST";
            Request.headers :=
              Headers_of [ ("Content-Type", "application/json");
                           ("Authorization",
                            or_empty (Headers_get (Request.headers req) "Authorization")) ];
            Request.body := Some (JSON_stringify (JObj (Jimeng.addDefaults fb))) |} ])%list.
Proof.
  intros Hm Hp Hc Hj Ht.
  destruct (filterParams_from_empty Jimeng.SUPPORTED_IMAGE_PARAMS m) as (fb & Hfb & Hk).
  exists fb. split; [exact Hk |].
  unfold Jimeng.handleRequest, Jimeng.handleRequest_try,
    Jimeng.handleImageGenerationRequest, target_of.
  rewrite copy_into_https.
  rewrite Hm, Hp, Hc. simpl. js_unfold. rewrite Hj. simpl. rewrite Ht. simpl.
  rewrite Hfb.
  js_cases; reflexivity.
Qed.

Lemma xai_dispatch req w (m : gmap string JSON) :
  Request.method req = "POST" ->
  pathname (Request.url req) = "/v1/images/generations" ->
  includes "application/json"
    (or_empty (Headers_get (Request.headers req) "Content-Type")) = true ->
  rt_json rt (Request.body req) = Normal (JObj m) ->
  exists fb,
    (forall k, fb !! k = if decide (k ∈ XAI.SUPPORTED_IMAGE_PARAMS) then m !! k else None) /\
    fetched (snd (XAI.handleRequest rt req w)) =
      (fetched w ++
       [ {| Request.url := target_of Xai req;
            Request.method := "POST";
            Request.headers :=
              Headers_of [ ("Content-Type", "application/json");
                           ("Authorization",
                            or_empty (Headers_get (Request.headers req) "Authorization")) ];
            Request.body := Some (JSON_stringify (JObj fb)) |} ])%list.
Proof.
  intros Hm Hp Hc Hj.
  destruct (filterParams_from_empty XAI.SUPPORTED_IMAGE_PARAMS m) as (fb & Hfb & Hk).
  rewrite <- same_filterParams in Hfb.
  exists fb. split; [exact Hk |].
  unfold XAI.handleRequest, XAI.handleRequest_try, XAI.handleImageGenerationRequest,
    target_of.
  rewrite copy_into_https.
  rewrite Hm, Hp, Hc. simpl. js_unfold. rewrite Hj. simpl.
  rewrite Hfb.
  rewrite ?same_error_response.
  js_cases; reflexivity.
Qed.

Lemma filterParams_null p params (acc : gmap string JSON) :
  Jimeng.filterParams (p :: params) JNull acc =
  Throw (TypeError ("Cannot read properties of null (reading '" ++ p ++ "')")).
Proof. reflexivity. Qed.

Lemma filterParams_cons p params (v : JSON) (acc : gmap string JSON) :
  Jimeng.filterParams (p :: params) v acc =
  match get v p with
  | Throw e => Throw e
  | Normal None => Jimeng.filterParams params v acc
  | Normal (Some x) => Jimeng.filterParams params v (<[p := x]> acc)
  end.
Proof. reflexivity. Qed.

Lemma filterParams_nonnull params (parsed : JSON) (acc : gmap string JSON) :
  parsed <> JNull ->
  Jimeng.filterParams params parsed acc =
  Jimeng.filterParams params (JObj (own_properties parsed)) acc.
Proof.
  intros Hn. revert acc.
  induction params as [| p params IH]; intros acc; [reflexivity |].
  rewrite !filterParams_cons.
  assert (get parsed p = get (JObj (own_properties parsed)) p) as ->.
  { destruct parsed; simpl; try reflexivity; try congruence;
      rewrite lookup_empty; reflexivity. }
  cbn [get]. destruct (own_properties parsed !! p); apply IH.
Qed.

Lemma xai_dispatch_nonnull req w (parsed : JSON) :
  Request.method req = "POST" ->
  pathname (Request.url req) = "/v1/images/generations" ->
  includes "application/json"
    (or_empty (Headers_get (Request.headers req) "Content-Type")) = true ->
  rt_json rt (Request.body req) = Normal parsed ->
  parsed <> JNull ->
  exists fb,
    (forall k, fb !! k =
       if decide (k ∈ XAI.SUPPORTED_IMAGE_PARAMS) then own_properties parsed !! k else None) /\
    fetched (snd (XAI.handleRequest rt req w)) =
      (fetched w ++
       [ {| Request.url := target_of Xai req;
            Request.method := "POST";
            Request.headers :=
              Headers_of [ ("Content-Type", "application/json");
                           ("Authorization",
                            or_empty (Headers_get (Request.headers req) "Authorization")) ];
            Request.body := Some (JSON_stringify (JObj fb)) |} ])%list.
Proof.
  intros Hm Hp Hc Hj Hn.
  destruct (filterParams_from_empty XAI.SUPPORTED_IMAGE_PARAMS (own_properties parsed))
    as (fb & Hfb & Hk).
  rewrite <- filterParams_nonnull in Hfb by exact Hn.
  rewrite <- same_filterParams in Hfb.
  exists fb. split; [exact Hk |].
  unfold XAI.handleRequest, XAI.handleRequest_try, XAI.handleImageGenerationRequest,
    target_of.
  rewrite copy_into_https.
  rewrite Hm, Hp, Hc. simpl. js_unfold. rewrite Hj. simpl.
  rewrite Hfb.
  rewrite ?same_error_response.
  js_cases; reflexivity.
Qed.

(** ** The generic route of the xAI proxy *)

Lemma forwarded_body_accepted (method : string) (body : option Body) :
  (get_or_head (toUpperCase method) = true ->
   get_or_head method = true \/ body = None) ->
  get_or_head (normalize_method method) = true ->
  (if negb (String.eqb method "GET") && negb (String.eqb method "HEAD")
   then body else None) = None.
Proof.
  intros Hb Hg. rewrite get_or_head_normalize in Hg.
  destruct (Hb Hg) as [Hm | ->].
  - unfold get_or_head in Hm.
    destruct (String.eqb method "GET"); [reflexivity |].
    destruct (String.eqb method "HEAD"); [reflexivity | discriminate].
  - destruct (negb (String.eqb method "GET") && negb (String.eqb method "HEAD"));
      reflexivity.
Qed.

Lemma xai_forward req w :
  Request.method req <> "OPTIONS" ->
  startsWith "/v1/" (pathname (Request.url req)) = true ->
  ~ (pathname (Request.url req) = "/v1/images/generations" /\ Request.method req = "POST") ->
  forbidden_method (Request.method req) = false ->
  (get_or_head (toUpperCase (Request.method req)) = true ->
   get_or_head (Request.method req) = true \/ Request.body req = None) ->
  fetched (snd (XAI.handleRequest rt req w)) =
    (fetched w ++
     [ {| Request.url := target_of Xai req;
          Request.method := normalize_method (Request.method req);
          Request.headers :=
            delete "cf-visitor"
              (delete "cf-ray"
                 (delete "cf-ipcountry"
                    (delete "cf-connecting-ip"
                       (<["host" := "api.x.ai"]> (Request.headers req)))));
          Request.body :=
            if negb (String.eqb (Request.method req) "GET")
               && negb (String.eqb (Request.method req) "HEAD")
            then Request.body req else None |} ])%list.
Proof.
  intros Hm Hs Hn Hf Hb.
  apply String.eqb_neq in Hm.
  assert (String.eqb (pathname (Request.url req)) XAI.IMAGE_GENERATION_PATH
          && String.eqb (Request.method req) "POST" = false) as Hr.
  { apply not_true_is_false. intros H. apply andb_true_iff in H as [H1 H2].
    apply String.eqb_eq in H1. apply String.eqb_eq in H2. apply Hn. split; assumption. }
  unfold XAI.handleRequest, XAI.handleRequest_try, XAI.forward.
  rewrite Hm, Hs, Hr. simpl. js_unfold. rewrite copy_into_https.
  rewrite Request_new_accepts
    by (first [exact Hf | apply forwarded_body_accepted; exact Hb]).
  rewrite ?same_error_response.
  js_cases; reflexivity.
Qed.

(** A forbidden method stops the generic route at the constructor. *)
Lemma xai_forward_forbidden req w :
  Request.method req <> "OPTIONS" ->
  startsWith "/v1/" (pathname (Request.url req)) = true ->
  ~ (pathname (Request.url req) = "/v1/images/generations" /\ Request.method req = "POST") ->
  forbidden_method (Request.method req) = true ->
  XAI.handleRequest rt req w =
    (Normal (error_reply 500 "Internal Server Error: Method is forbidden"),
     {| fetched := fetched w;
        console := (console w ++ [("Proxy error:", TypeError "Method is forbidden")])%list |}).
Proof.
  intros Hm Hs Hn Hf.
  apply String.eqb_neq in Hm.
  assert (String.eqb (pathname (Request.url req)) XAI.IMAGE_GENERATION_PATH
          && String.eqb (Request.method req) "POST" = false) as Hr.
  { apply not_true_is_false. intros H. apply andb_true_iff in H as [H1 H2].
    apply String.eqb_eq in H1. apply String.eqb_eq in H2. apply Hn. split; assumption. }
  unfold XAI.handleRequest, XAI.handleRequest_try, XAI.forward.
  rewrite Hm, Hs, Hr. simpl. js_unfold.
  rewrite Request_new_forbidden by exact Hf.
  rewrite same_error_response.
  rewrite error_response_eq by (first [lia | reflexivity]). reflexivity.
Qed.

End Runs.

(* ===================================================================== *)
(** * The proxies against their specification *)
(* ===================================================================== *)

(** ** C1 *)

(** C1. Whatever the request, in both deployments, [handleRequest] ends in
    a response, and that response carries
    [Access-Control-Allow-Origin: *]: the preflight reply, a relayed
    upstream response, and the 400, 404, 500 and 502 replies alike. *)
Theorem cors_header_on_every_response (v : Variant) (rt : Runtime)
    (req : Request.t) (w : World) :
  exists r w',
    handleRequest v rt req w = (Normal r, w') /\
    Headers_get (Response.headers r) "Access-Control-Allow-Origin" = Some "*".
Proof.
  destruct v.
  - destruct (xai_good rt req w) as (r & w' & Hrun & Hcors).
    exists r, w'. split; [exact Hrun | exact Hcors].
  - destruct (jimeng_good rt req w) as (r & w' & Hrun & Hcors).
    exists r, w'. split; [exact Hrun | exact Hcors].
Qed.

(** ** C8 *)

(** C8. An OPTIONS request, in both deployments and on any path, is
    answered with status 204, no body, and exactly the four preflight
    headers; nothing is sent upstream. *)
Theorem options_preflight_reply (v : Variant) (rt : Runtime) (req : Request.t)
    (w : World) :
  Request.method req = "OPTIONS" ->
  exists r,
    handleRequest v rt req w = (Normal r, w) /\
    Response.status r = 204 /\
    Response.body r = None /\
    Response.headers r =
      list_to_map
        [ ("access-control-allow-origin", "*");
          ("access-control-allow-methods", "GET, POST, PUT, DELETE, OPTIONS");
          ("access-control-allow-headers", "Content-Type, Authorization, X-Requested-With");
          ("access-control-max-age", "86400") ] /\
    Headers_get (Response.headers r) "Access-Control-Allow-Origin" = Some "*" /\
    Headers_get (Response.headers r) "Access-Control-Allow-Methods"
      = Some "GET, POST, PUT, DELETE, OPTIONS" /\
    Headers_get (Response.headers r) "Access-Control-Allow-Headers"
      = Some "Content-Type, Authorization, X-Requested-With" /\
    Headers_get (Response.headers r) "Access-Control-Max-Age" = Some "86400".
Proof.
  intros H. exists preflight_reply.
  split; [apply handleRequest_options; exact H |].
  repeat split; reflexivity.
Qed.

Lemma options_preflight_reply_witness :
  exists r,
    handleRequest JimengV (rt_parsed JNull) options_request world0 = (Normal r, world0) /\
    Response.status r = 204 /\
    Response.body r = None /\
    Response.headers r =
      list_to_map
        [ ("access-control-allow-origin", "*");
          ("access-control-allow-methods", "GET, POST, PUT, DELETE, OPTIONS");
          ("access-control-allow-headers", "Content-Type, Authorization, X-Requested-With");
          ("access-control-max-age", "86400") ] /\
    Headers_get (Response.headers r) "Access-Control-Allow-Origin" = Some "*" /\
    Headers_get (Response.headers r) "Access-Control-Allow-Methods"
      = Some "GET, POST, PUT, DELETE, OPTIONS" /\
    Headers_get (Response.headers r) "Access-Control-Allow-Headers"
      = Some "Content-Type, Authorization, X-Requested-With" /\
    Headers_get (Response.headers r) "Access-Control-Max-Age" = Some "86400".
Proof.
  apply (options_preflight_reply JimengV (rt_parsed JNull) options_request world0).
  reflexivity.
Defined.

(** ** C9 *)

(** C9. In both deployments [handleRequest] always completes normally,
    with a response; and whenever the body of its [try] block throws
    (an exception no inner handler turned into a reply), the response is
    the 500 reply whose JSON body embeds the error message. *)
Theorem no_exception_reaches_the_runtime :
  (forall (v : Variant) (rt : Runtime) (req : Request.t) (w : World),
      exists r w', handleRequest v rt req w = (Normal r, w')) /\
  (forall (v : Variant) (rt : Runtime) (req : Request.t) (w w1 : World) (e : Error),
      Request.method req <> "OPTIONS" ->
      handleRequest_try v rt req w = (Throw e, w1) ->
      exists r w',
        handleRequest v rt req w = (Normal r, w') /\
        Response.status r = 500 /\
        Response.body r =
          Some (JSON_stringify
                  (JObj {[ "error" := JStr ("Internal Server Error: " ++ message e) ]})) /\
        includes (message e) ("Internal Server Error: " ++ message e) = true).
Proof.
  split.
  - intros v rt req w.
    destruct (handleRequest_good rt v req w) as (r & w' & H & _). eauto.
  - intros v rt req w w1 e Hm Ht.
    eexists _, _. split; [apply (handleRequest_catch rt v req w e w1 Hm Ht) |].
    repeat split. apply includes_app.
Qed.

Lemma no_exception_reaches_the_runtime_witness :
  exists r w',
    handleRequest Xai (rt_parsed JNull) (image_request []) world0 = (Normal r, w') /\
    Response.status r = 500 /\
    Response.body r =
      Some (JSON_stringify
              (JObj {[ "error" :=
                         JStr "Internal Server Error: Cannot read properties of null (reading 'model')" ]})) /\
    includes "Cannot read properties of null (reading 'model')"
      "Internal Server Error: Cannot read properties of null (reading 'model')" = true.
Proof.
  apply (proj2 no_exception_reaches_the_runtime Xai (rt_parsed JNull) (image_request [])
           world0 world0
           (TypeError "Cannot read properties of null (reading 'model')")).
  - discriminate.
  - vm_compute. reflexivity.
Defined.

(** ** C6 *)

(** C6. Every request a run sends upstream, in either deployment, goes to
    the fixed upstream host over https, on the inbound path, with the
    inbound query parameters in their order, repeated keys included.  On
    [?a=1&a=2] the outbound address ends in [?a=1&a=2], for the generic
    route of the xAI proxy and for the image route of the jimeng proxy. *)
Theorem forwarded_url_keeps_path_and_query :
  (forall (v : Variant) (rt : Runtime) (req : Request.t) (w : World),
      exists sent,
        fetched (snd (handleRequest v rt req w)) = (fetched w ++ sent)%list /\
        Forall
          (fun o =>
             Request.url o =
               {| protocol := "https:"; host := upstream_host v;
                  pathname := pathname (Request.url req);
                  searchParams := searchParams (Request.url req) |} /\
             URL_toString (Request.url o) =
               "https://" ++ upstream_host v ++ pathname (Request.url req) ++
               match searchParams (Request.url req) with
               | [] => ""
               | l => "?" ++ serialize_params l
               end)
          sent) /\
  map (fun o => URL_toString (Request.url o))
      (fetched (snd (handleRequest Xai (rt_parsed JNull) models_request world0)))
    = [ "https://api.x.ai/v1/models?a=1&a=2" ] /\
  map (fun o => URL_toString (Request.url o))
      (fetched (snd (handleRequest JimengV (rt_parsed (JObj {[ "prompt" := JStr "cat" ]}))
                       (image_request [ ("a", "1"); ("a", "2") ]) world0)))
    = [ "https://sejktjafstpl.us-east-1.clawcloudrun.com/v1/images/generations?a=1&a=2" ].
Proof.
  split; [| split; vm_compute; reflexivity].
  intros v rt req w.
  destruct (handleRequest_sent rt v req w) as (sent & Hs & Hall).
  exists sent. split; [exact Hs |].
  eapply Forall_impl; [exact Hall |].
  intros o Ho. simpl in Ho. split; [exact Ho |].
  rewrite Ho. reflexivity.
Qed.

(** ** C7 *)

(** C7, as the claim has it, fails on a TRACE request: it is not OPTIONS,
    its path is under [/v1/], it is not the image route, and yet no
    outbound request exists, because the [Request] constructor refuses the
    method; the reply is the 500 of the outer handler. *)
Lemma xai_trace_request_is_not_forwarded :
  Request.method trace_request <> "OPTIONS" /\
  startsWith "/v1/" (pathname (Request.url trace_request)) = true /\
  ~ (pathname (Request.url trace_request) = "/v1/images/generations" /\
     Request.method trace_request = "POST") /\
  ~ (exists o,
       In o (fetched (snd (handleRequest Xai (rt_parsed JNull) trace_request world0)))) /\
  fst (handleRequest Xai (rt_parsed JNull) trace_request world0) =
    Normal (error_reply 500 "Internal Server Error: Method is forbidden").
Proof.
  split; [discriminate |]. split; [reflexivity |].
  split; [intros [H _]; discriminate H |].
  split; [| vm_compute; reflexivity].
  assert (fetched (snd (handleRequest Xai (rt_parsed JNull) trace_request world0)) = [])
    as -> by (vm_compute; reflexivity).
  intros [o []].
Qed.

(** C7, amended. In the xAI proxy, take a request that is not OPTIONS,
    whose path starts with [/v1/], and that is not
    [POST /v1/images/generations].  If its method is not CONNECT, TRACE or
    TRACK (in any letter case), and it is not a get or head spelled other
    than in upper case that carries a body, then it is sent upstream
    once: with its method when that is spelled in upper case (and with
    delete, get, head, options, post and put upper-cased by the
    [Request] constructor), with [Host] set to the upstream
    host, without the four [cf-] headers, with every other header as it
    came, and with its body unless the method is GET or HEAD, in which
    case no body is sent.  If its method is CONNECT, TRACE or TRACK,
    nothing is sent and the reply is the 500 of the outer handler. *)
Theorem xai_generic_forward_request :
  (forall (rt : Runtime) (req : Request.t) (w : World),
      Request.method req <> "OPTIONS" ->
      startsWith "/v1/" (pathname (Request.url req)) = true ->
      ~ (pathname (Request.url req) = "/v1/images/generations" /\
         Request.method req = "POST") ->
      forbidden_method (Request.method req) = false ->
      (get_or_head (toUpperCase (Request.method req)) = true ->
       get_or_head (Request.method req) = true \/ Request.body req = None) ->
      exists o,
        fetched (snd (handleRequest Xai rt req w)) = (fetched w ++ [o])%list /\
        (toUpperCase (Request.method req) = Request.method req ->
         Request.method o = Request.method req) /\
        (toUpperCase (Request.method req)
           ∈ [ "DELETE"; "GET"; "HEAD"; "OPTIONS"; "POST"; "PUT" ] ->
         Request.method o = toUpperCase (Request.method req)) /\
        Headers_get (Request.headers o) "Host" = Some "api.x.ai" /\
        Forall (fun n => Headers_get (Request.headers o) n = None)
          [ "cf-connecting-ip"; "cf-ipcountry"; "cf-ray"; "cf-visitor" ] /\
        (forall n,
            toLowerCase n ∉ [ "host"; "cf-connecting-ip"; "cf-ipcountry"; "cf-ray";
                              "cf-visitor" ] ->
            Headers_get (Request.headers o) n = Headers_get (Request.headers req) n) /\
        (Request.method req <> "GET" -> Request.method req <> "HEAD" ->
         Request.body o = Request.body req) /\
        (Request.method req = "GET" \/ Request.method req = "HEAD" ->
         Request.body o = None)) /\
  (forall (rt : Runtime) (req : Request.t) (w : World),
      Request.method req <> "OPTIONS" ->
      startsWith "/v1/" (pathname (Request.url req)) = true ->
      ~ (pathname (Request.url req) = "/v1/images/generations" /\
         Request.method req = "POST") ->
      forbidden_method (Request.method req) = true ->
      fetched (snd (handleRequest Xai rt req w)) = fetched w /\
      fst (handleRequest Xai rt req w) =
        Normal (error_reply 500 "Internal Server Error: Method is forbidden")).
Proof.
  split.
  - intros rt req w Hm Hs Hn Hf Hb.
    eexists. split; [apply (xai_forward rt req w Hm Hs Hn Hf Hb) |].
    cbn [Request.method Request.headers Request.body].
    split; [apply normalize_method_upper |].
    split; [apply normalize_method_standard |].
    split; [unfold Headers_get; simplify_map_eq; reflexivity |].
    split.
    { repeat constructor; unfold Headers_get; simplify_map_eq; reflexivity. }
    split.
    { intros n Hne. unfold Headers_get.
      assert (toLowerCase n <> "host" /\ toLowerCase n <> "cf-connecting-ip" /\
              toLowerCase n <> "cf-ipcountry" /\ toLowerCase n <> "cf-ray" /\
              toLowerCase n <> "cf-visitor") as (? & ? & ? & ? & ?)
        by (repeat split; intros E; apply Hne; rewrite E; set_solver).
      rewrite !lookup_delete_ne by congruence.
      rewrite lookup_insert_ne by congruence. reflexivity. }
    split.
    + intros Hg Hh. apply String.eqb_neq in Hg. apply String.eqb_neq in Hh.
      rewrite Hg, Hh. reflexivity.
    + intros [-> | ->]; reflexivity.
  - intros rt req w Hm Hs Hn Hf. simpl.
    rewrite (xai_forward_forbidden rt req w Hm Hs Hn Hf). split; reflexivity.
Qed.

Lemma xai_generic_forward_request_witness :
  (exists o,
      fetched (snd (handleRequest Xai (rt_parsed JNull) models_request world0))
        = (fetched world0 ++ [o])%list /\
      (toUpperCase (Request.method models_request) = Request.method models_request ->
       Request.method o = Request.method models_request) /\
      (toUpperCase (Request.method models_request)
         ∈ [ "DELETE"; "GET"; "HEAD"; "OPTIONS"; "POST"; "PUT" ] ->
       Request.method o = toUpperCase (Request.method models_request)) /\
      Headers_get (Request.headers o) "Host" = Some "api.x.ai" /\
      Forall (fun n => Headers_get (Request.headers o) n = None)
        [ "cf-connecting-ip"; "cf-ipcountry"; "cf-ray"; "cf-visitor" ] /\
      (forall n,
          toLowerCase n ∉ [ "host"; "cf-connecting-ip"; "cf-ipcountry"; "cf-ray";
                            "cf-visitor" ] ->
          Headers_get (Request.headers o) n
            = Headers_get (Request.headers models_request) n) /\
      (Request.method models_request <> "GET" -> Request.method models_request <> "HEAD" ->
       Request.body o = Request.body models_request) /\
      (Request.method models_request = "GET" \/ Request.method models_request = "HEAD" ->
       Request.body o = None)) /\
  (fetched (snd (handleRequest Xai (rt_parsed JNull) trace_request world0))
     = fetched world0 /\
   fst (handleRequest Xai (rt_parsed JNull) trace_request world0) =
     Normal (error_reply 500 "Internal Server Error: Method is forbidden")).
Proof.
  split.
  - apply (proj1 xai_generic_forward_request (rt_parsed JNull) models_request world0).
    + simpl. discriminate.
    + reflexivity.
    + simpl. intros [H _]. discriminate H.
    + reflexivity.
    + intros _. left. reflexivity.
  - apply (proj2 xai_generic_forward_request (rt_parsed JNull) trace_request world0).
    + simpl. discriminate.
    + reflexivity.
    + simpl. intros [H _]. discriminate H.
    + reflexivity.
Defined.

(** ** C5 *)

(** The same from the side of the checks: an object body that passes them
    is sent upstream, so a host whose fetch always fails gets the 502. *)
Lemma checks_passed_then_502 (v : Variant) (rt : Runtime) (req : Request.t)
    (w : World) (m : gmap string JSON) (e : Error) :
  Request.method req = "POST" ->
  pathname (Request.url req) = "/v1/images/generations" ->
  includes "application/json"
    (or_empty (Headers_get (Request.headers req) "Content-Type")) = true ->
  rt_json rt (Request.body req) = Normal (JObj m) ->
  (v = JimengV -> truthy (m !! "prompt") = true) ->
  (forall o, rt_fetch rt o = Throw e) ->
  fst (handleRequest v rt req w) =
    Normal (error_reply 502 (fetch_error_label v ++ message e)).
Proof.
  intros Hm Hp Hc Hj Ht Hf.
  destruct v.
  - destruct (xai_dispatch rt req w m Hm Hp Hc Hj) as (fb & _ & Hs).
    eapply (image_fetch_failure rt Xai req w _ _ e Hm Hp Hs); [left; reflexivity | apply Hf].
  - destruct (jimeng_dispatch rt req w m Hm Hp Hc Hj (Ht eq_refl)) as (fb & _ & Hs).
    eapply (image_fetch_failure rt JimengV req w _ _ e Hm Hp Hs); [left; reflexivity | apply Hf].
Qed.

(** C5. On the image route of either deployment, a request that passes
    the checks (Content-Type containing [application/json], a body that
    parses, to something other than [null], and in the jimeng proxy a
    truthy prompt) is sent upstream, and when that call raises [e] the
    response is 502, carries the CORS header, and its JSON body is
    [{ "error": label ++ message }], which embeds the failure's message.
    More generally, whenever a run on the image route has sent a request
    and the call raised, the response is that 502.  (In the xAI proxy a
    body that parses to [null] never reaches the call.) *)
Theorem upstream_failure_is_502 :
  (forall (v : Variant) (rt : Runtime) (req : Request.t) (w : World) (parsed : JSON),
      Request.method req = "POST" ->
      pathname (Request.url req) = "/v1/images/generations" ->
      includes "application/json"
        (or_empty (Headers_get (Request.headers req) "Content-Type")) = true ->
      rt_json rt (Request.body req) = Normal parsed ->
      parsed <> JNull ->
      (v = JimengV -> truthy (own_properties parsed !! "prompt") = true) ->
      exists o,
        fetched (snd (handleRequest v rt req w)) = (fetched w ++ [o])%list /\
        forall e,
          rt_fetch rt o = Throw e ->
          exists r,
            fst (handleRequest v rt req w) = Normal r /\
            Response.status r = 502 /\
            Response.body r =
              Some (JSON_stringify
                      (JObj {[ "error" := JStr (fetch_error_label v ++ message e) ]})) /\
            includes (message e) (fetch_error_label v ++ message e) = true /\
            Headers_get (Response.headers r) "Access-Control-Allow-Origin" = Some "*") /\
  (forall (v : Variant) (rt : Runtime) (req : Request.t) (w : World)
          (sent : list Request.t) (o : Request.t) (e : Error),
      Request.method req = "POST" ->
      pathname (Request.url req) = "/v1/images/generations" ->
      fetched (snd (handleRequest v rt req w)) = (fetched w ++ sent)%list ->
      In o sent ->
      rt_fetch rt o = Throw e ->
      exists r,
        fst (handleRequest v rt req w) = Normal r /\
        Response.status r = 502 /\
        Response.body r =
          Some (JSON_stringify
                  (JObj {[ "error" := JStr (fetch_error_label v ++ message e) ]})) /\
        includes (message e) (fetch_error_label v ++ message e) = true /\
        Headers_get (Response.headers r) "Access-Control-Allow-Origin" = Some "*").
Proof.
  assert (forall (v : Variant) (rt : Runtime) (req : Request.t) (w : World)
                 (sent : list Request.t) (o : Request.t) (e : Error),
             Request.method req = "POST" ->
             pathname (Request.url req) = "/v1/images/generations" ->
             fetched (snd (handleRequest v rt req w)) = (fetched w ++ sent)%list ->
             In o sent ->
             rt_fetch rt o = Throw e ->
             exists r,
               fst (handleRequest v rt req w) = Normal r /\
               Response.status r = 502 /\
               Response.body r =
                 Some (JSON_stringify
                         (JObj {[ "error" := JStr (fetch_error_label v ++ message e) ]})) /\
               includes (message e) (fetch_error_label v ++ message e) = true /\
               Headers_get (Response.headers r) "Access-Control-Allow-Origin" = Some "*")
    as Hraised.
  { intros v rt req w sent o e Hm Hp Hs Hin Hf.
    eexists. split; [apply (image_fetch_failure rt v req w sent o e Hm Hp Hs Hin Hf) |].
    repeat split. apply includes_app. }
  split; [| exact Hraised].
  intros v rt req w parsed Hm Hp Hc Hj Hn Ht.
  assert (exists o, fetched (snd (handleRequest v rt req w)) = (fetched w ++ [o])%list)
    as [o Hs].
  { destruct v; simpl.
    - destruct (xai_dispatch_nonnull rt req w parsed Hm Hp Hc Hj Hn) as (fb & _ & Hd).
      eexists. exact Hd.
    - specialize (Ht eq_refl).
      destruct parsed as [| | | | | | m]; try discriminate Ht.
      destruct (jimeng_dispatch rt req w m Hm Hp Hc Hj Ht) as (fb & _ & Hd).
      eexists. exact Hd. }
  exists o. split; [exact Hs |].
  intros e Hf.
  apply (Hraised v rt req w [o] o e Hm Hp Hs); [left; reflexivity | exact Hf].
Qed.

Lemma upstream_failure_is_502_witness :
  (exists r,
      fst (handleRequest JimengV (rt_reset (JObj {[ "prompt" := JStr "cat" ]}))
             (image_request []) world0) = Normal r /\
      Response.status r = 502 /\
      Response.body r =
        Some (JSON_stringify
                (JObj {[ "error" :=
                           JStr (fetch_error_label JimengV ++
                                 message (TypeError "connection reset")) ]})) /\
      includes (message (TypeError "connection reset"))
        (fetch_error_label JimengV ++ message (TypeError "connection reset")) = true /\
      Headers_get (Response.headers r) "Access-Control-Allow-Origin" = Some "*") /\
  (exists r,
      fst (handleRequest Xai (rt_reset (JObj {[ "prompt" := JStr "cat" ]}))
             (image_request []) world0) = Normal r /\
      Response.status r = 502 /\
      Response.body r =
        Some (JSON_stringify
                (JObj {[ "error" :=
                           JStr (fetch_error_label Xai ++
                                 message (TypeError "connection reset")) ]})) /\
      includes (message (TypeError "connection reset"))
        (fetch_error_label Xai ++ message (TypeError "connection reset")) = true /\
      Headers_get (Response.headers r) "Access-Control-Allow-Origin" = Some "*").
Proof.
  split.
  - destruct (proj1 upstream_failure_is_502 JimengV
                (rt_reset (JObj {[ "prompt" := JStr "cat" ]})) (image_request []) world0
                (JObj {[ "prompt" := JStr "cat" ]}))
      as (o & _ & H502).
    + reflexivity.
    + reflexivity.
    + reflexivity.
    + reflexivity.
    + discriminate.
    + intros _. reflexivity.
    + apply (H502 (TypeError "connection reset")). reflexivity.
  - eapply (proj2 upstream_failure_is_502 Xai (rt_reset (JObj {[ "prompt" := JStr "cat" ]}))
              (image_request []) world0 _ _ (TypeError "connection reset")).
    + reflexivity.
    + reflexivity.
    + vm_compute. reflexivity.
    + left. reflexivity.
    + reflexivity.
Defined.

(** ** C10 *)

(** C10. In the jimeng proxy, for an image request that passes the checks
    with a parsed object [m], the body sent upstream holds, under model,
    negativePrompt, width and height, the client's value when that value
    is truthy and the default ("jimeng-3.0", "", 1024, 1024) when it is
    falsy or missing; under sample_strength it holds the client's value
    whenever there is one, 0 included, and 0.5 only when there is none. *)
Theorem jimeng_defaults_by_field (rt : Runtime) (req : Request.t) (w : World)
    (m : gmap string JSON) :
  Request.method req = "POST" ->
  pathname (Request.url req) = "/v1/images/generations" ->
  includes "application/json"
    (or_empty (Headers_get (Request.headers req) "Content-Type")) = true ->
  rt_json rt (Request.body req) = Normal (JObj m) ->
  truthy (m !! "prompt") = true ->
  exists o fb,
    fetched (snd (handleRequest JimengV rt req w)) = (fetched w ++ [o])%list /\
    Request.body o = Some (JSON_stringify (JObj fb)) /\
    fb !! "model" =
      (if truthy (m !! "model") then m !! "model" else Some (JStr "jimeng-3.0")) /\
    fb !! "negativePrompt" =
      (if truthy (m !! "negativePrompt") then m !! "negativePrompt" else Some (JStr "")) /\
    fb !! "width" =
      (if truthy (m !! "width") then m !! "width" else Some (JNum 1024)) /\
    fb !! "height" =
      (if truthy (m !! "height") then m !! "height" else Some (JNum 1024)) /\
    fb !! "sample_strength" =
      match m !! "sample_strength" with
      | Some x => Some x
      | None => Some (JNum (1 # 2))
      end.
Proof.
  intros Hm Hp Hc Hj Ht.
  destruct (jimeng_dispatch rt req w m Hm Hp Hc Hj Ht) as (fb & Hk & Hs).
  eexists _, (Jimeng.addDefaults fb). split; [exact Hs |]. simpl.
  split; [reflexivity |].
  rewrite addDefaults_model, addDefaults_negativePrompt, addDefaults_width,
    addDefaults_height, addDefaults_sample_strength.
  rewrite !Hk.
  repeat split; reflexivity.
Qed.

Lemma jimeng_defaults_by_field_witness :
  exists o fb,
    fetched (snd (handleRequest JimengV
                    (rt_parsed (JObj {[ "prompt" := JStr "cat"; "model" := JStr "";
                                        "width" := JNum 0; "height" := JNum 0;
                                        "sample_strength" := JNum 0 ]}))
                    (image_request []) world0)) = ([] ++ [o])%list /\
    Request.body o = Some (JSON_stringify (JObj fb)) /\
    fb !! "model" = Some (JStr "jimeng-3.0") /\
    fb !! "negativePrompt" = Some (JStr "") /\
    fb !! "width" = Some (JNum 1024) /\
    fb !! "height" = Some (JNum 1024) /\
    fb !! "sample_strength" = Some (JNum 0).
Proof.
  pose proof (jimeng_defaults_by_field
           (rt_parsed (JObj {[ "prompt" := JStr "cat"; "model" := JStr "";
                               "width" := JNum 0; "height" := JNum 0;
                               "sample_strength" := JNum 0 ]}))
           (image_request []) world0
           {[ "prompt" := JStr "cat"; "model" := JStr "";
              "width" := JNum 0; "height" := JNum 0; "sample_strength" := JNum 0 ]}
           eq_refl eq_refl eq_refl eq_refl eq_refl) as H.
  vm_compute in H. vm_compute. exact H.
Defined.

(** ** C2 *)

(** What does hold of the filter.  In the xAI proxy the body sent upstream
    is exactly the parsed object cut down to the allow-list. *)
Lemma xai_forwarded_body_is_filtered (rt : Runtime) (req : Request.t) (w : World)
    (m : gmap string JSON) :
  Request.method req = "POST" ->
  pathname (Request.url req) = "/v1/images/generations" ->
  includes "application/json"
    (or_empty (Headers_get (Request.headers req) "Content-Type")) = true ->
  rt_json rt (Request.body req) = Normal (JObj m) ->
  exists o fb,
    fetched (snd (handleRequest Xai rt req w)) = (fetched w ++ [o])%list /\
    Request.body o = Some (JSON_stringify (JObj fb)) /\
    dom fb ⊆ (list_to_set (allow_list Xai) : gset string) /\
    (forall k, k ∈ allow_list Xai -> fb !! k = m !! k) /\
    (forall k, k ∉ allow_list Xai -> fb !! k = None).
Proof.
  intros Hm Hp Hc Hj.
  destruct (xai_dispatch rt req w m Hm Hp Hc Hj) as (fb & Hk & Hs).
  eexists _, fb. split; [exact Hs |].
  split; [reflexivity |].
  split; [| split].
  - intros k Hd. apply elem_of_dom in Hd as [x Hx]. rewrite Hk in Hx.
    rewrite elem_of_list_to_set. case_decide; [assumption | discriminate].
  - intros k Hin. rewrite Hk. rewrite decide_True by exact Hin. reflexivity.
  - intros k Hout. rewrite Hk. rewrite decide_False by exact Hout. reflexivity.
Qed.

(** In the jimeng proxy the names sent are on the allow-list, names off
    the list are dropped, and prompt is sent as supplied. *)
Lemma jimeng_forwarded_keys_allowed (rt : Runtime) (req : Request.t) (w : World)
    (m : gmap string JSON) :
  Request.method req = "POST" ->
  pathname (Request.url req) = "/v1/images/generations" ->
  includes "application/json"
    (or_empty (Headers_get (Request.headers req) "Content-Type")) = true ->
  rt_json rt (Request.body req) = Normal (JObj m) ->
  truthy (m !! "prompt") = true ->
  exists o fb,
    fetched (snd (handleRequest JimengV rt req w)) = (fetched w ++ [o])%list /\
    Request.body o = Some (JSON_stringify (JObj fb)) /\
    (forall k, k ∉ allow_list JimengV -> fb !! k = None) /\
    fb !! "prompt" = m !! "prompt".
Proof.
  intros Hm Hp Hc Hj Ht.
  destruct (jimeng_dispatch rt req w m Hm Hp Hc Hj Ht) as (fb & Hk & Hs).
  eexists _, (Jimeng.addDefaults fb). split; [exact Hs |].
  split; [reflexivity |]. split.
  - intros k Hout. rewrite addDefaults_other.
    + rewrite Hk. rewrite decide_False by exact Hout. reflexivity.
    + intros Hin. apply Hout. unfold allow_list, Jimeng.SUPPORTED_IMAGE_PARAMS.
      set_solver.
  - rewrite addDefaults_other by set_solver. rewrite Hk. reflexivity.
Qed.

(** C2. The jimeng proxy on [{"prompt": "cat", "model": ""}]: model is on
    the allow-list and its parsed value, the empty string, is not
    undefined, yet the body sent upstream holds "jimeng-3.0" under model,
    not the parsed value. *)
Theorem jimeng_supplied_model_not_forwarded :
  let parsed : gmap string JSON := {[ "prompt" := JStr "cat"; "model" := JStr "" ]} in
  parsed !! "model" = Some (JStr "") /\
  forwarded_bodies JimengV (rt_parsed (JObj parsed)) (image_request []) =
    [ Some (JSON_stringify
              (JObj (list_to_map
                       [ ("model", JStr "jimeng-3.0"); ("prompt", JStr "cat");
                         ("negativePrompt", JStr ""); ("width", JNum 1024);
                         ("height", JNum 1024); ("sample_strength", JNum (1 # 2)) ]))) ].
Proof. split; vm_compute; reflexivity. Qed.

(** ** C3 *)

(** C3. The jimeng proxy on [{"prompt": "cat", "width": 0, "height": 0,
    "sample_strength": 0}]: width and height were supplied, with the value
    0, and the body sent upstream holds the default 1024 under both;
    sample_strength, also supplied as 0, is kept. *)
Theorem jimeng_supplied_zero_replaced_by_default :
  let parsed : gmap string JSON :=
    {[ "prompt" := JStr "cat"; "width" := JNum 0; "height" := JNum 0;
       "sample_strength" := JNum 0 ]} in
  parsed !! "width" = Some (JNum 0) /\
  parsed !! "height" = Some (JNum 0) /\
  forwarded_bodies JimengV (rt_parsed (JObj parsed)) (image_request []) =
    [ Some (JSON_stringify
              (JObj (list_to_map
                       [ ("model", JStr "jimeng-3.0"); ("prompt", JStr "cat");
                         ("negativePrompt", JStr ""); ("width", JNum 1024);
                         ("height", JNum 1024); ("sample_strength", JNum 0) ]))) ].
Proof. repeat split; vm_compute; reflexivity. Qed.

(** ** C4 *)

(** What does hold of the required-field check: whenever reading prompt
    off the parsed body gives a falsy value or nothing, the reply is the
    400 naming prompt, and nothing is sent upstream. *)
Lemma jimeng_missing_prompt_is_400 (rt : Runtime) (req : Request.t) (w : World)
    (parsed : JSON) (prompt : option JSON) :
  Request.method req = "POST" ->
  pathname (Request.url req) = "/v1/images/generations" ->
  includes "application/json"
    (or_empty (Headers_get (Request.headers req) "Content-Type")) = true ->
  rt_json rt (Request.body req) = Normal parsed ->
  get parsed "prompt" = Normal prompt ->
  truthy prompt = false ->
  handleRequest JimengV rt req w =
    (Normal (error_reply 400 "Missing required parameter: prompt"), w).
Proof.
  intros Hm Hp Hc Hj Hg Ht. simpl.
  unfold Jimeng.handleRequest, Jimeng.handleRequest_try,
    Jimeng.handleImageGenerationRequest.
  rewrite Hm, Hp, Hc. simpl. js_unfold. rewrite Hj. simpl. rewrite Hg, Ht.
  reflexivity.
Qed.

(** C4. The jimeng proxy on the body [null], sent as application/json: the
    body parses, it has no prompt, and the reply is not the 400 naming
    prompt but the 500 of the outer handler, because reading prompt off
    [null] throws. *)
Theorem jimeng_null_body_answers_500 :
  exists w',
    handleRequest JimengV (rt_parsed JNull) (image_request []) world0 =
      (Normal (error_reply 500
                 "Internal Server Error: Cannot read properties of null (reading 'prompt')"),
       w') /\
    fetched w' = [].
Proof. eexists. split; vm_compute; reflexivity. Qed.

(** ** Sample cases *)

(** [{"prompt": "cat", "unsupported_field": "x"}] through the xAI proxy:
    prompt is sent, unsupported_field is not. *)
Example unsupported_field_dropped :
  forwarded_bodies Xai
    (rt_parsed (JObj {[ "prompt" := JStr "cat"; "unsupported_field" := JStr "x" ]}))
    (image_request [])
  = [ Some (JSON_stringify (JObj {[ "prompt" := JStr "cat" ]})) ].
Proof. vm_compute. reflexivity. Qed.

(** [{"prompt": "cat"}] through the jimeng proxy picks up all five defaults. *)
Example prompt_only_gets_defaults :
  forwarded_bodies JimengV (rt_parsed (JObj {[ "prompt" := JStr "cat" ]})) (image_request [])
  = [ Some (JSON_stringify
              (JObj (list_to_map
                       [ ("model", JStr "jimeng-3.0"); ("prompt", JStr "cat");
                         ("negativePrompt", JStr ""); ("width", JNum 1024);
                         ("height", JNum 1024); ("sample_strength", JNum (1 # 2)) ]))) ].
Proof. vm_compute. reflexivity. Qed.

(** [{}] through the jimeng proxy: 400 naming prompt, nothing sent. *)
Example empty_object_is_400 :
  handleRequest JimengV (rt_parsed (JObj ∅)) (image_request []) world0
  = (Normal (error_reply 400 "Missing required parameter: prompt"), world0).
Proof. vm_compute. reflexivity. Qed.

(** A path outside [/v1/] is a 404 in both deployments. *)
Example unknown_path_is_404 :
  let req :=
    {| Request.url := {| protocol := "http:"; host := "localhost:8000";
                         pathname := "/unknown"; searchParams := [] |};
       Request.method := "GET"; Request.headers := ∅; Request.body := None |} in
  handleRequest Xai (rt_parsed JNull) req world0 = (Normal not_found_reply, world0) /\
  handleRequest JimengV (rt_parsed JNull) req world0 = (Normal not_found_reply, world0).
Proof. split; vm_compute; reflexivity. Qed.

(** A content type that is not JSON is refused before the body is read. *)
Example form_content_type_is_400 :
  let req :=
    {| Request.url := image_url [];
       Request.method := "POST";
       Request.headers := Headers_of [ ("Content-Type", "multipart/form-data") ];
       Request.body := Some (Stream "...") |} in
  handleRequest Xai (rt_parsed JNull) req world0
  = (Normal (error_reply 400 "Unsupported Content-Type. Please use application/json"), world0).
Proof. vm_compute. reflexivity. Qed.

(** The generic route of the xAI proxy answers an upstream failure with
    500, not 502: only the image route has its own handler. *)
Example generic_route_failure_is_500 :
  fst (handleRequest Xai (rt_reset JNull) models_request world0)
  = Normal (error_reply 500 "Internal Server Error: connection reset").
Proof. vm_compute. reflexivity. Qed.

(* ===================================================================== *)
(** * Further properties of the handlers *)
(* ===================================================================== *)

Arguments Response_new : simpl never.

Section MoreRuns.
Variable rt : Runtime.

Lemma Response_new_total body status statusText (headers : Headers) :
  200 <= status <= 599 ->
  (body = None \/ null_body_status status = false) ->
  exists r, Response_new body status statusText headers = Normal r.
Proof.
  intros [H1 H2] Hb. unfold Response_new.
  apply Z.leb_le in H1. apply Z.leb_le in H2. rewrite H1, H2. simpl.
  destruct Hb as [-> | ->]; [eauto |].
  destruct body; eauto.
Qed.

Lemma Response_new_content_type body status statusText (headers : Headers) r ct :
  Response_new body status statusText headers = Normal r ->
  headers !! "content-type" = Some ct ->
  Response.headers r !! "content-type" = Some ct.
Proof.
  unfold Response_new. intros H Hct. rewrite Hct in H.
  repeat case_match; simplify_eq; simpl; exact Hct.
Qed.

(** Before anything is sent: the content type, the parse, the route. *)

Lemma unsupported_content_type v req w :
  Request.method req = "POST" ->
  pathname (Request.url req) = "/v1/images/generations" ->
  includes "application/json"
    (or_empty (Headers_get (Request.headers req) "Content-Type")) = false ->
  handleRequest v rt req w =
    (Normal (error_reply 400 "Unsupported Content-Type. Please use application/json"), w).
Proof.
  intros Hm Hp Hc.
  destruct v; simpl;
    unfold XAI.handleRequest, XAI.handleRequest_try, XAI.handleImageGenerationRequest,
      Jimeng.handleRequest, Jimeng.handleRequest_try, Jimeng.handleImageGenerationRequest;
    rewrite Hm, Hp, Hc; reflexivity.
Qed.

Lemma invalid_json v req w e :
  Request.method req = "POST" ->
  pathname (Request.url req) = "/v1/images/generations" ->
  includes "application/json"
    (or_empty (Headers_get (Request.headers req) "Content-Type")) = true ->
  rt_json rt (Request.body req) = Throw e ->
  handleRequest v rt req w = (Normal (error_reply 400 "Invalid JSON body"), w).
Proof.
  intros Hm Hp Hc Hj.
  destruct v; simpl;
    unfold XAI.handleRequest, XAI.handleRequest_try, XAI.handleImageGenerationRequest,
      Jimeng.handleRequest, Jimeng.handleRequest_try, Jimeng.handleImageGenerationRequest;
    rewrite Hm, Hp, Hc; simpl; js_unfold; rewrite Hj; reflexivity.
Qed.

Lemma xai_not_found req w :
  Request.method req <> "OPTIONS" ->
  startsWith "/v1/" (pathname (Request.url req)) = false ->
  XAI.handleRequest rt req w = (Normal not_found_reply, w).
Proof.
  intros Hm Hs. apply String.eqb_neq in Hm.
  unfold XAI.handleRequest, XAI.handleRequest_try. rewrite Hm, Hs. reflexivity.
Qed.

Lemma jimeng_not_found req w :
  Request.method req <> "OPTIONS" ->
  ~ (pathname (Request.url req) = "/v1/images/generations" /\ Request.method req = "POST") ->
  Jimeng.handleRequest rt req w = (Normal not_found_reply, w).
Proof.
  intros Hm Hn. apply String.eqb_neq in Hm.
  assert (String.eqb (pathname (Request.url req)) Jimeng.IMAGE_GENERATION_PATH
          && String.eqb (Request.method req) "POST" = false) as Hr.
  { apply not_true_is_false. intros H. apply andb_true_iff in H as [H1 H2].
    apply String.eqb_eq in H1. apply String.eqb_eq in H2. apply Hn. split; assumption. }
  unfold Jimeng.handleRequest, Jimeng.handleRequest_try. rewrite Hm, Hr. reflexivity.
Qed.

(** At most one request goes upstream. *)
Lemma handleRequest_sent_once v req w :
  exists sent,
    fetched (snd (handleRequest v rt req w)) = (fetched w ++ sent)%list /\
    (length sent <= 1)%nat.
Proof.
  destruct v; simpl;
    unfold XAI.handleRequest, XAI.handleRequest_try, XAI.forward,
      XAI.handleImageGenerationRequest,
      Jimeng.handleRequest, Jimeng.handleRequest_try,
      Jimeng.handleImageGenerationRequest;
    js_unfold;
    rewrite ?same_handleCorsPreflight, ?same_addCorsHeaders, ?same_error_response;
    rewrite handleCorsPreflight_eq, not_found_eq;
    js_cases; simpl;
    first [ exists []; split; [rewrite app_nil_r; reflexivity | simpl; lia]
          | eexists [_]; split; [reflexivity | simpl; lia] ].
Qed.

(** When something is sent. *)

Lemma truthy_prompt_object (parsed : JSON) (p : option JSON) :
  get parsed "prompt" = Normal p -> truthy p = true ->
  exists m, parsed = JObj m /\ m !! "prompt" = p.
Proof.
  destruct parsed; simpl; intros H Ht; simplify_eq; try discriminate.
  eauto.
Qed.

Lemma jimeng_sent_only_if req w :
  fetched (snd (Jimeng.handleRequest rt req w)) <> fetched w ->
  Request.method req = "POST" /\
  pathname (Request.url req) = "/v1/images/generations" /\
  includes "application/json"
    (or_empty (Headers_get (Request.headers req) "Content-Type")) = true /\
  exists m, rt_json rt (Request.body req) = Normal (JObj m) /\
            truthy (m !! "prompt") = true.
Proof.
  unfold Jimeng.handleRequest, Jimeng.handleRequest_try,
    Jimeng.handleImageGenerationRequest.
  js_unfold. rewrite handleCorsPreflight_eq, not_found_eq.
  js_cases; simpl; intros Hne; try congruence.
  all: match goal with
       | H : _ && _ = true |- _ =>
           apply andb_true_iff in H as [Hp Hm];
           apply String.eqb_eq in Hp; apply String.eqb_eq in Hm
       end.
  all: match goal with
       | H : negb (includes _ _) = false |- _ => apply negb_false_iff in H
       end.
  all: match goal with
       | H : negb (truthy _) = false |- _ => apply negb_false_iff in H
       end.
  all: match goal with
       | Hg : get _ "prompt" = Normal _, Ht : truthy _ = true |- _ =>
           destruct (truthy_prompt_object _ _ Hg Ht) as (m & -> & <-)
       end.
  all: repeat split; try assumption; eauto.
Qed.

Lemma xai_sent_only_if req w :
  fetched (snd (XAI.handleRequest rt req w)) <> fetched w ->
  Request.method req <> "OPTIONS" /\
  startsWith "/v1/" (pathname (Request.url req)) = true /\
  (pathname (Request.url req) = "/v1/images/generations" ->
   Request.method req = "POST" ->
   includes "application/json"
     (or_empty (Headers_get (Request.headers req) "Content-Type")) = true /\
   exists parsed, rt_json rt (Request.body req) = Normal parsed /\ parsed <> JNull).
Proof.
  unfold XAI.handleRequest, XAI.handleRequest_try, XAI.forward,
    XAI.handleImageGenerationRequest.
  js_unfold. rewrite same_handleCorsPreflight, handleCorsPreflight_eq.
  rewrite same_addCorsHeaders, same_error_response, not_found_eq.
  js_cases; simpl; intros Hne; try congruence.
  all: match goal with
       | H : String.eqb _ "OPTIONS" = false |- _ =>
           apply String.eqb_neq in H
       end.
  all: match goal with
       | H : negb (startsWith _ _) = false |- _ => apply negb_false_iff in H
       end.
  all: split; [assumption |]; split; [assumption |]; intros Hp Hm.
  all: match goal with
       | H : _ && _ = false |- _ => rewrite Hp, Hm in H; discriminate H
       | _ => idtac
       end.
  all: match goal with
       | H : negb (includes _ _) = false |- _ => apply negb_false_iff in H
       end.
  all: split; [assumption |]; eexists; split; [reflexivity |].
  all: intros ->; rewrite same_filterParams in *;
       match goal with
       | H : Jimeng.filterParams _ JNull _ = Normal _ |- _ =>
           unfold XAI.SUPPORTED_IMAGE_PARAMS in H; rewrite filterParams_null in H;
           discriminate H
       end.
Qed.

(** What was sent on the image route. *)

Lemma image_sent v req w sent o :
  Request.method req = "POST" ->
  pathname (Request.url req) = "/v1/images/generations" ->
  fetched (snd (handleRequest v rt req w)) = (fetched w ++ sent)%list ->
  In o sent ->
  exists parsed fb,
    rt_json rt (Request.body req) = Normal parsed /\
    parsed <> JNull /\
    (v = JimengV -> truthy (own_properties parsed !! "prompt") = true) /\
    (forall k, fb !! k =
       if decide (k ∈ allow_list v) then own_properties parsed !! k else None) /\
    sent = [o] /\
    o = {| Request.url := target_of v req;
           Request.method := "POST";
           Request.headers :=
             Headers_of [ ("Content-Type", "application/json");
                          ("Authorization",
                           or_empty (Headers_get (Request.headers req) "Authorization")) ];
           Request.body :=
             Some (JSON_stringify
                     (JObj match v with
                           | Xai => fb
                           | JimengV => Jimeng.addDefaults fb
                           end)) |}.
Proof.
  intros Hm Hp Hs Hin.
  assert (fetched (snd (handleRequest v rt req w)) <> fetched w) as Hne.
  { rewrite Hs. intros E. symmetry in E. apply app_same_nil in E.
    subst sent. contradiction. }
  destruct v; simpl in *.
  - destruct (xai_sent_only_if req w Hne) as (_ & _ & Himg).
    destruct (Himg Hp Hm) as (Hc & parsed & Hj & Hn).
    destruct (xai_dispatch_nonnull rt req w parsed Hm Hp Hc Hj Hn) as (fb & Hk & Hd).
    rewrite Hd in Hs. apply app_inv_head in Hs. subst sent.
    destruct Hin as [<- | []].
    exists parsed, fb.
    split; [exact Hj |]. split; [exact Hn |]. split; [discriminate |].
    split; [exact Hk |]. split; reflexivity.
  - destruct (jimeng_sent_only_if req w Hne) as (_ & _ & Hc & m & Hj & Ht).
    destruct (jimeng_dispatch rt req w m Hm Hp Hc Hj Ht) as (fb & Hk & Hd).
    rewrite Hd in Hs. apply app_inv_head in Hs. subst sent.
    destruct Hin as [<- | []].
    exists (JObj m), fb.
    split; [exact Hj |]. split; [discriminate |]. split; [intros _; exact Ht |].
    split; [exact Hk |]. split; reflexivity.
Qed.

Lemma image_headers_eq (a : string) :
  Headers_of [ ("Content-Type", "application/json"); ("Authorization", a) ] =
  <["authorization" := a]> (<["content-type" := "application/json"]> (∅ : Headers)).
Proof. reflexivity. Qed.

(** The relays. *)

Lemma Response_new_typed body status statusText (headers : Headers) ct :
  200 <= status <= 599 ->
  (body = None \/ null_body_status status = false) ->
  headers !! "content-type" = Some ct ->
  Response_new body status statusText headers =
    Normal {| Response.status := status; Response.statusText := statusText;
              Response.headers := headers; Response.body := body |}.
Proof.
  intros [H1 H2] Hb Hct. unfold Response_new.
  apply Z.leb_le in H1. apply Z.leb_le in H2. rewrite H1, H2, Hct. simpl.
  destruct Hb as [-> | Hn]; [reflexivity |]. rewrite Hn.
  destruct body as [[| |] |]; reflexivity.
Qed.

Lemma image_relay v req w sent o up :
  Request.method req = "POST" ->
  pathname (Request.url req) = "/v1/images/generations" ->
  fetched (snd (handleRequest v rt req w)) = (fetched w ++ sent)%list ->
  In o sent ->
  rt_fetch rt o = Normal up ->
  200 <= Response.status up <= 599 ->
  (Response.body up = None \/ null_body_status (Response.status up) = false) ->
  fst (handleRequest v rt req w) =
    Normal {| Response.status := Response.status up;
              Response.statusText := Response.statusText up;
              Response.headers :=
                <["content-type" := "application/json"]>
                  (<["access-control-allow-origin" := "*"]> (Response.headers up));
              Response.body := Response.body up |}.
Proof.
  intros Hm Hp Hs Hin Hf Hr Hb. revert Hs.
  destruct v; simpl;
    unfold XAI.handleRequest, XAI.handleRequest_try, XAI.forward,
      XAI.handleImageGenerationRequest,
      Jimeng.handleRequest, Jimeng.handleRequest_try,
      Jimeng.handleImageGenerationRequest;
    rewrite Hm, Hp; simpl;
    js_unfold;
    rewrite ?same_addCorsHeaders, ?same_error_response;
    js_cases; simpl; intros Hs;
    try (apply app_same_nil in Hs; subst sent; contradiction);
    apply app_inv_head in Hs; subst sent;
    destruct Hin as [<- | []];
    match goal with
    | H : rt_fetch _ _ = ?c |- _ =>
        lazymatch c with
        | Normal up => fail
        | _ => rewrite Hf in H; simplify_eq
        end
    end;
    match goal with
    | H : Response_new _ _ _ _ = _ |- _ =>
        rewrite (Response_new_typed _ _ _ _ "application/json" Hr Hb) in H
          by (unfold Headers_set; apply lookup_insert_eq);
        simplify_eq
    end; reflexivity.
Qed.

Ltac generic_route Hm Hs Hn :=
  apply String.eqb_neq in Hm;
  let Hr := fresh "Hr" in
  assert (String.eqb (pathname (Request.url _)) XAI.IMAGE_GENERATION_PATH
          && String.eqb (Request.method _) "POST" = false) as Hr
    by (apply not_true_is_false; intros H; apply andb_true_iff in H as [H1 H2];
        apply String.eqb_eq in H1; apply String.eqb_eq in H2; apply Hn; split; eassumption);
  unfold XAI.handleRequest, XAI.handleRequest_try, XAI.forward;
  rewrite Hm, Hs, Hr; simpl; js_unfold; rewrite ?same_addCorsHeaders, ?same_error_response.

Lemma xai_generic_relay req w sent o up :
  Request.method req <> "OPTIONS" ->
  startsWith "/v1/" (pathname (Request.url req)) = true ->
  ~ (pathname (Request.url req) = "/v1/images/generations" /\ Request.method req = "POST") ->
  fetched (snd (XAI.handleRequest rt req w)) = (fetched w ++ sent)%list ->
  In o sent ->
  rt_fetch rt o = Normal up ->
  200 <= Response.status up <= 599 ->
  (Response.body up = None \/ null_body_status (Response.status up) = false) ->
  exists r,
    fst (XAI.handleRequest rt req w) = Normal r /\
    Response_new (Response.body up) (Response.status up) (Response.statusText up)
      (<["access-control-allow-origin" := "*"]> (Response.headers up)) = Normal r.
Proof.
  intros Hm Hs Hn Hsent Hin Hf Hr Hb. revert Hsent.
  destruct (Response_new_total (Response.body up) (Response.status up)
              (Response.statusText up)
              (<["access-control-allow-origin" := "*"]> (Response.headers up)) Hr Hb)
    as (r & Hnew).
  generic_route Hm Hs Hn.
  js_cases; simpl; intros Hsent;
    try (apply app_same_nil in Hsent; subst sent; contradiction);
    apply app_inv_head in Hsent; subst sent;
    destruct Hin as [<- | []];
    match goal with
    | H : rt_fetch _ _ = ?c |- _ =>
        lazymatch c with
        | Normal up => fail
        | _ => rewrite Hf in H; simplify_eq
        end
    end;
    rewrite addCorsHeaders_eq in *;
    match goal with
    | H : Response_new _ _ _ _ = ?c |- _ =>
        lazymatch c with
        | Normal r => fail
        | _ => rewrite Hnew in H; simplify_eq
        end
    end;
    (eexists; split; [reflexivity | eassumption]).
Qed.

Lemma xai_generic_failure req w sent o e :
  Request.method req <> "OPTIONS" ->
  startsWith "/v1/" (pathname (Request.url req)) = true ->
  ~ (pathname (Request.url req) = "/v1/images/generations" /\ Request.method req = "POST") ->
  fetched (snd (XAI.handleRequest rt req w)) = (fetched w ++ sent)%list ->
  In o sent ->
  rt_fetch rt o = Throw e ->
  fst (XAI.handleRequest rt req w) =
    Normal (error_reply 500 ("Internal Server Error: " ++ message e)).
Proof.
  intros Hm Hs Hn Hsent Hin Hf. revert Hsent.
  generic_route Hm Hs Hn.
  js_cases; simpl; intros Hsent;
    try (apply app_same_nil in Hsent; subst sent; contradiction);
    apply app_inv_head in Hsent; subst sent;
    destruct Hin as [<- | []];
    match goal with
    | H : rt_fetch _ _ = ?c |- _ =>
        lazymatch c with
        | Throw e => fail
        | _ => rewrite Hf in H; simplify_eq
        end
    end; reflexivity.
Qed.

Lemma xai_null_body req w :
  Request.method req = "POST" ->
  pathname (Request.url req) = "/v1/images/generations" ->
  includes "application/json"
    (or_empty (Headers_get (Request.headers req) "Content-Type")) = true ->
  rt_json rt (Request.body req) = Normal JNull ->
  XAI.handleRequest rt req w =
    (Normal (error_reply 500
               "Internal Server Error: Cannot read properties of null (reading 'model')"),
     {| fetched := fetched w;
        console := (console w ++
                    [ ("Proxy error:",
                       TypeError "Cannot read properties of null (reading 'model')") ])%list |}).
Proof.
  intros Hm Hp Hc Hj.
  unfold XAI.handleRequest, XAI.handleRequest_try, XAI.handleImageGenerationRequest.
  rewrite Hm, Hp, Hc. simpl. js_unfold. rewrite Hj. reflexivity.
Qed.

Lemma xai_generic_sent_only_if req w :
  fetched (snd (XAI.handleRequest rt req w)) <> fetched w ->
  ~ (pathname (Request.url req) = "/v1/images/generations" /\ Request.method req = "POST") ->
  forbidden_method (Request.method req) = false /\
  (get_or_head (toUpperCase (Request.method req)) = true ->
   get_or_head (Request.method req) = true \/ Request.body req = None).
Proof.
  intros Hne Hn.
  destruct (xai_sent_only_if req w Hne) as (Hm & Hs & _).
  revert Hne.
  generic_route Hm Hs Hn.
  js_cases; simpl; intros Hne; try congruence.
  all: split; [assumption |]; intros Hg; rewrite <- get_or_head_normalize in Hg.
  all: match goal with
       | H : negb _ && negb _ = true |- _ => right; auto
       | H : negb _ && negb _ = false |- _ =>
           left; unfold get_or_head;
           destruct (String.eqb (Request.method req) "GET"); [reflexivity |];
           destruct (String.eqb (Request.method req) "HEAD"); [reflexivity | discriminate H]
       end.
Qed.

End MoreRuns.

(** The defaults and the filter, composed with themselves. *)

Section Composition.

Lemma truthy_is_Some (x : option JSON) : truthy x = true -> is_Some x.
Proof. destruct x; [eauto | discriminate]. Qed.



Lemma defaults_keep_allowed (fb : gmap string JSON) :
  (forall k, k ∉ Jimeng.SUPPORTED_IMAGE_PARAMS -> fb !! k = None) ->
  forall k, k ∉ Jimeng.SUPPORTED_IMAGE_PARAMS -> Jimeng.addDefaults fb !! k = None.
Proof.
  intros Hfb k Hk. rewrite addDefaults_other; [apply Hfb; exact Hk |].
  intros Hin. apply Hk. unfold Jimeng.SUPPORTED_IMAGE_PARAMS. set_solver.
Qed.

End Composition.

(* ===================================================================== *)
(** * Further properties, stated *)
(* ===================================================================== *)

(** ** The CORS helper *)

(** X1. [addCorsHeaders], in both files, sets
    [Access-Control-Allow-Origin] to [*] whatever was there, touches no
    other header, and applied twice gives what it gives once. *)
Theorem addCorsHeaders_overwrites_only_origin (h : Headers) :
  XAI.addCorsHeaders h = Jimeng.addCorsHeaders h /\
  Headers_get (Jimeng.addCorsHeaders h) "Access-Control-Allow-Origin" = Some "*" /\
  (forall n, toLowerCase n <> "access-control-allow-origin" ->
             Headers_get (Jimeng.addCorsHeaders h) n = Headers_get h n) /\
  Jimeng.addCorsHeaders (Jimeng.addCorsHeaders h) = Jimeng.addCorsHeaders h.
Proof.
  split; [reflexivity |].
  split; [apply forward_headers_cors |].
  split; [| apply addCorsHeaders_idempotent].
  intros n Hn. unfold Headers_get. rewrite addCorsHeaders_eq.
  apply lookup_insert_ne. congruence.
Qed.

Lemma addCorsHeaders_overwrites_only_origin_witness :
  Headers_get (Jimeng.addCorsHeaders (Headers_of [ ("Access-Control-Allow-Origin", "https://a.example"); ("Vary", "Origin") ])) "Vary"
  = Headers_get (Headers_of [ ("Access-Control-Allow-Origin", "https://a.example"); ("Vary", "Origin") ]) "Vary".
Proof.
  apply (proj1 (proj2 (proj2 (addCorsHeaders_overwrites_only_origin
           (Headers_of [ ("Access-Control-Allow-Origin", "https://a.example"); ("Vary", "Origin") ]))))).
  vm_compute. discriminate.
Defined.

(** ** Replies given before anything is sent *)

(** X2. On the image route of either deployment, a request whose
    Content-Type does not contain [application/json] (or that has none)
    gets the 400 reply about the content type, as JSON and with the CORS
    header; the body is not parsed and nothing is sent or logged. *)
Theorem unsupported_content_type_is_400 (v : Variant) (rt : Runtime)
    (req : Request.t) (w : World) :
  Request.method req = "POST" ->
  pathname (Request.url req) = "/v1/images/generations" ->
  includes "application/json"
    (or_empty (Headers_get (Request.headers req) "Content-Type")) = false ->
  exists r,
    handleRequest v rt req w = (Normal r, w) /\
    Response.status r = 400 /\
    Response.body r =
      Some (JSON_stringify
              (JObj {[ "error" := JStr "Unsupported Content-Type. Please use application/json" ]})) /\
    Headers_get (Response.headers r) "Content-Type" = Some "application/json" /\
    Headers_get (Response.headers r) "Access-Control-Allow-Origin" = Some "*".
Proof.
  intros Hm Hp Hc. eexists.
  split; [apply (unsupported_content_type rt v req w Hm Hp Hc) |].
  repeat split.
Qed.

Lemma unsupported_content_type_is_400_witness :
  exists r,
    handleRequest JimengV rt_bad_json form_request world0 = (Normal r, world0) /\
    Response.status r = 400 /\
    Response.body r =
      Some (JSON_stringify
              (JObj {[ "error" := JStr "Unsupported Content-Type. Please use application/json" ]})) /\
    Headers_get (Response.headers r) "Content-Type" = Some "application/json" /\
    Headers_get (Response.headers r) "Access-Control-Allow-Origin" = Some "*".
Proof.
  apply (unsupported_content_type_is_400 JimengV rt_bad_json form_request world0);
    reflexivity.
Defined.

(** X3. On the image route of either deployment, with a JSON content
    type, a body that fails to parse gets the 400 reply
    [Invalid JSON body], whatever the parse error was; nothing is sent or
    logged. *)
Theorem invalid_json_is_400 (v : Variant) (rt : Runtime) (req : Request.t)
    (w : World) (e : Error) :
  Request.method req = "POST" ->
  pathname (Request.url req) = "/v1/images/generations" ->
  includes "application/json"
    (or_empty (Headers_get (Request.headers req) "Content-Type")) = true ->
  rt_json rt (Request.body req) = Throw e ->
  exists r,
    handleRequest v rt req w = (Normal r, w) /\
    Response.status r = 400 /\
    Response.body r = Some (JSON_stringify (JObj {[ "error" := JStr "Invalid JSON body" ]})) /\
    Headers_get (Response.headers r) "Content-Type" = Some "application/json" /\
    Headers_get (Response.headers r) "Access-Control-Allow-Origin" = Some "*".
Proof.
  intros Hm Hp Hc Hj. eexists.
  split; [apply (invalid_json rt v req w e Hm Hp Hc Hj) |].
  repeat split.
Qed.

Lemma invalid_json_is_400_witness :
  exists r,
    handleRequest Xai rt_bad_json (image_request []) world0 = (Normal r, world0) /\
    Response.status r = 400 /\
    Response.body r = Some (JSON_stringify (JObj {[ "error" := JStr "Invalid JSON body" ]})) /\
    Headers_get (Response.headers r) "Content-Type" = Some "application/json" /\
    Headers_get (Response.headers r) "Access-Control-Allow-Origin" = Some "*".
Proof.
  apply (invalid_json_is_400 Xai rt_bad_json (image_request []) world0
           {| name := "SyntaxError"; message := "Unexpected end of JSON input" |});
    reflexivity.
Defined.

(** X4. A request that is not OPTIONS gets the plain-text 404
    [Not Found], with the CORS header and nothing sent: in the xAI proxy
    when its path does not start with [/v1/], in the jimeng proxy unless
    it is [POST /v1/images/generations]. *)
Theorem unrouted_request_is_404 :
  (forall (rt : Runtime) (req : Request.t) (w : World),
      Request.method req <> "OPTIONS" ->
      startsWith "/v1/" (pathname (Request.url req)) = false ->
      exists r,
        handleRequest Xai rt req w = (Normal r, w) /\
        Response.status r = 404 /\
        Response.body r = Some (Text "Not Found") /\
        Headers_get (Response.headers r) "Content-Type" = Some "text/plain" /\
        Headers_get (Response.headers r) "Access-Control-Allow-Origin" = Some "*") /\
  (forall (rt : Runtime) (req : Request.t) (w : World),
      Request.method req <> "OPTIONS" ->
      ~ (pathname (Request.url req) = "/v1/images/generations" /\
         Request.method req = "POST") ->
      exists r,
        handleRequest JimengV rt req w = (Normal r, w) /\
        Response.status r = 404 /\
        Response.body r = Some (Text "Not Found") /\
        Headers_get (Response.headers r) "Content-Type" = Some "text/plain" /\
        Headers_get (Response.headers r) "Access-Control-Allow-Origin" = Some "*").
Proof.
  split; intros rt req w Hm Hr; exists not_found_reply.
  - split; [apply (xai_not_found rt req w Hm Hr) |]. repeat split.
  - split; [apply (jimeng_not_found rt req w Hm Hr) |]. repeat split.
Qed.

Lemma unrouted_request_is_404_witness :
  (exists r,
      handleRequest Xai (rt_parsed JNull) unknown_request world0 = (Normal r, world0) /\
      Response.status r = 404 /\
      Response.body r = Some (Text "Not Found") /\
      Headers_get (Response.headers r) "Content-Type" = Some "text/plain" /\
      Headers_get (Response.headers r) "Access-Control-Allow-Origin" = Some "*") /\
  (exists r,
      handleRequest JimengV (rt_parsed JNull) models_request world0 = (Normal r, world0) /\
      Response.status r = 404 /\
      Response.body r = Some (Text "Not Found") /\
      Headers_get (Response.headers r) "Content-Type" = Some "text/plain" /\
      Headers_get (Response.headers r) "Access-Control-Allow-Origin" = Some "*").
Proof.
  split.
  - apply (proj1 unrouted_request_is_404 (rt_parsed JNull) unknown_request world0).
    + simpl. discriminate.
    + reflexivity.
  - apply (proj2 unrouted_request_is_404 (rt_parsed JNull) models_request world0).
    + simpl. discriminate.
    + simpl. intros [H _]. discriminate H.
Defined.

(** ** Relaying the upstream's answer *)

(** X5. On the image route of either deployment, when the upstream
    answers (with a status from 200 to 599, and no body if the status
    allows none), the reply has the upstream's status, status text and
    body; its Content-Type is [application/json] and its
    [Access-Control-Allow-Origin] is [*], whatever the upstream sent for
    these two; every other header is the upstream's. *)
Theorem image_route_relays_upstream (v : Variant) (rt : Runtime) (req : Request.t)
    (w : World) (sent : list Request.t) (o : Request.t) (up : Response.t) :
  Request.method req = "POST" ->
  pathname (Request.url req) = "/v1/images/generations" ->
  fetched (snd (handleRequest v rt req w)) = (fetched w ++ sent)%list ->
  In o sent ->
  rt_fetch rt o = Normal up ->
  200 <= Response.status up <= 599 ->
  (Response.body up = None \/ null_body_status (Response.status up) = false) ->
  exists r,
    fst (handleRequest v rt req w) = Normal r /\
    Response.status r = Response.status up /\
    Response.statusText r = Response.statusText up /\
    Response.body r = Response.body up /\
    Headers_get (Response.headers r) "Content-Type" = Some "application/json" /\
    Headers_get (Response.headers r) "Access-Control-Allow-Origin" = Some "*" /\
    (forall n,
        toLowerCase n <> "content-type" ->
        toLowerCase n <> "access-control-allow-origin" ->
        Headers_get (Response.headers r) n = Headers_get (Response.headers up) n).
Proof.
  intros Hm Hp Hs Hin Hf Hr Hb. eexists.
  split; [apply (image_relay rt v req w sent o up Hm Hp Hs Hin Hf Hr Hb) |].
  cbn [Response.status Response.statusText Response.body Response.headers].
  unfold Headers_get.
  split; [reflexivity |]. split; [reflexivity |]. split; [reflexivity |].
  split; [apply lookup_insert_eq |].
  split; [rewrite lookup_insert_ne by discriminate; apply lookup_insert_eq |].
  intros n H1 H2.
  rewrite !lookup_insert_ne by congruence. reflexivity.
Qed.

Lemma image_route_relays_upstream_witness :
  exists r,
    fst (handleRequest JimengV (rt_parsed (JObj {[ "prompt" := JStr "cat" ]}))
           (image_request []) world0) = Normal r /\
    Response.status r = Response.status upstream_ok /\
    Response.statusText r = Response.statusText upstream_ok /\
    Response.body r = Response.body upstream_ok /\
    Headers_get (Response.headers r) "Content-Type" = Some "application/json" /\
    Headers_get (Response.headers r) "Access-Control-Allow-Origin" = Some "*" /\
    (forall n,
        toLowerCase n <> "content-type" ->
        toLowerCase n <> "access-control-allow-origin" ->
        Headers_get (Response.headers r) n = Headers_get (Response.headers upstream_ok) n).
Proof.
  eapply (image_route_relays_upstream JimengV (rt_parsed (JObj {[ "prompt" := JStr "cat" ]}))
            (image_request []) world0 _ _ upstream_ok).
  - reflexivity.
  - reflexivity.
  - vm_compute. reflexivity.
  - left. reflexivity.
  - reflexivity.
  - simpl. lia.
  - right. reflexivity.
Defined.

(** X6. On the generic route of the xAI proxy, when the upstream answers
    (status from 200 to 599, no body if the status allows none), the
    reply has the upstream's status, status text and body, and
    [Access-Control-Allow-Origin: *]; the upstream's Content-Type is kept
    as it is, and so is every other header. *)
Theorem generic_route_relays_upstream (rt : Runtime) (req : Request.t)
    (w : World) (sent : list Request.t) (o : Request.t) (up : Response.t) :
  Request.method req <> "OPTIONS" ->
  startsWith "/v1/" (pathname (Request.url req)) = true ->
  ~ (pathname (Request.url req) = "/v1/images/generations" /\ Request.method req = "POST") ->
  fetched (snd (handleRequest Xai rt req w)) = (fetched w ++ sent)%list ->
  In o sent ->
  rt_fetch rt o = Normal up ->
  200 <= Response.status up <= 599 ->
  (Response.body up = None \/ null_body_status (Response.status up) = false) ->
  exists r,
    fst (handleRequest Xai rt req w) = Normal r /\
    Response.status r = Response.status up /\
    Response.statusText r = Response.statusText up /\
    Response.body r = Response.body up /\
    Headers_get (Response.headers r) "Access-Control-Allow-Origin" = Some "*" /\
    (forall ct,
        Headers_get (Response.headers up) "Content-Type" = Some ct ->
        Headers_get (Response.headers r) "Content-Type" = Some ct) /\
    (forall n,
        toLowerCase n <> "content-type" ->
        toLowerCase n <> "access-control-allow-origin" ->
        Headers_get (Response.headers r) n = Headers_get (Response.headers up) n).
Proof.
  intros Hm Hs Hn Hsent Hin Hf Hr Hb.
  destruct (xai_generic_relay rt req w sent o up Hm Hs Hn Hsent Hin Hf Hr Hb)
    as (r & Hrun & Hnew).
  exists r. split; [exact Hrun |].
  pose proof (Response_new_inv _ _ _ _ _ Hnew) as (H1 & H2 & H3 & _ & Hk).
  split; [exact H1 |]. split; [exact H2 |]. split; [exact H3 |].
  split; [| split].
  - unfold Headers_get. rewrite Hk by discriminate. apply lookup_insert_eq.
  - intros ct Hct. unfold Headers_get in *.
    apply (Response_new_content_type _ _ _ _ _ _ Hnew).
    rewrite lookup_insert_ne by discriminate. exact Hct.
  - intros n Hn1 Hn2. unfold Headers_get. rewrite Hk by exact Hn1.
    apply lookup_insert_ne. congruence.
Qed.

Lemma generic_route_relays_upstream_witness :
  exists r,
    fst (handleRequest Xai (rt_parsed JNull) models_request world0) = Normal r /\
    Response.status r = Response.status upstream_ok /\
    Response.statusText r = Response.statusText upstream_ok /\
    Response.body r = Response.body upstream_ok /\
    Headers_get (Response.headers r) "Access-Control-Allow-Origin" = Some "*" /\
    (forall ct,
        Headers_get (Response.headers upstream_ok) "Content-Type" = Some ct ->
        Headers_get (Response.headers r) "Content-Type" = Some ct) /\
    (forall n,
        toLowerCase n <> "content-type" ->
        toLowerCase n <> "access-control-allow-origin" ->
        Headers_get (Response.headers r) n = Headers_get (Response.headers upstream_ok) n).
Proof.
  eapply (generic_route_relays_upstream (rt_parsed JNull) models_request world0 _ _
            upstream_ok).
  - simpl. discriminate.
  - reflexivity.
  - simpl. intros [H _]. discriminate H.
  - vm_compute. reflexivity.
  - left. reflexivity.
  - reflexivity.
  - simpl. lia.
  - right. reflexivity.
Defined.

(** X7. On the generic route of the xAI proxy an upstream call that
    raises is answered by the outer handler: status 500 (not 502), JSON
    body [{ "error": "Internal Server Error: " ++ message }], with the
    CORS header. *)
Theorem generic_route_failure_is_500_reply (rt : Runtime) (req : Request.t)
    (w : World) (sent : list Request.t) (o : Request.t) (e : Error) :
  Request.method req <> "OPTIONS" ->
  startsWith "/v1/" (pathname (Request.url req)) = true ->
  ~ (pathname (Request.url req) = "/v1/images/generations" /\ Request.method req = "POST") ->
  fetched (snd (handleRequest Xai rt req w)) = (fetched w ++ sent)%list ->
  In o sent ->
  rt_fetch rt o = Throw e ->
  exists r,
    fst (handleRequest Xai rt req w) = Normal r /\
    Response.status r = 500 /\
    Response.body r =
      Some (JSON_stringify
              (JObj {[ "error" := JStr ("Internal Server Error: " ++ message e) ]})) /\
    Headers_get (Response.headers r) "Access-Control-Allow-Origin" = Some "*".
Proof.
  intros Hm Hs Hn Hsent Hin Hf. eexists.
  split; [apply (xai_generic_failure rt req w sent o e Hm Hs Hn Hsent Hin Hf) |].
  repeat split.
Qed.

Lemma generic_route_failure_is_500_reply_witness :
  exists r,
    fst (handleRequest Xai (rt_reset JNull) models_request world0) = Normal r /\
    Response.status r = 500 /\
    Response.body r =
      Some (JSON_stringify
              (JObj {[ "error" :=
                         JStr ("Internal Server Error: " ++
                               message (TypeError "connection reset")) ]})) /\
    Headers_get (Response.headers r) "Access-Control-Allow-Origin" = Some "*".
Proof.
  eapply (generic_route_failure_is_500_reply (rt_reset JNull) models_request world0 _ _
            (TypeError "connection reset")).
  - simpl. discriminate.
  - reflexivity.
  - simpl. intros [H _]. discriminate H.
  - vm_compute. reflexivity.
  - left. reflexivity.
  - reflexivity.
Defined.

(** ** What goes upstream *)

(** X8. The request either deployment sends upstream on the image route is
    a POST with exactly two headers: Content-Type [application/json], and
    Authorization with the inbound value, or the empty string when the
    inbound request has none.  No other inbound header is passed on, and
    the body is the JSON text of an object with no name off the
    allow-list. *)
Theorem image_route_outbound_request (v : Variant) (rt : Runtime) (req : Request.t)
    (w : World) (sent : list Request.t) (o : Request.t) :
  Request.method req = "POST" ->
  pathname (Request.url req) = "/v1/images/generations" ->
  fetched (snd (handleRequest v rt req w)) = (fetched w ++ sent)%list ->
  In o sent ->
  Request.method o = "POST" /\
  Headers_get (Request.headers o) "Content-Type" = Some "application/json" /\
  Headers_get (Request.headers o) "Authorization"
    = Some (or_empty (Headers_get (Request.headers req) "Authorization")) /\
  (forall n,
      toLowerCase n <> "content-type" -> toLowerCase n <> "authorization" ->
      Headers_get (Request.headers o) n = None) /\
  exists fb,
    Request.body o = Some (JSON_stringify (JObj fb)) /\
    (forall k, k ∉ allow_list v -> fb !! k = None).
Proof.
  intros Hm Hp Hs Hin.
  destruct (image_sent rt v req w sent o Hm Hp Hs Hin)
    as (parsed & fb & _ & _ & _ & Hk & _ & ->).
  cbn [Request.method Request.headers Request.body].
  rewrite image_headers_eq. unfold Headers_get.
  split; [reflexivity |].
  split; [reflexivity |].
  split; [apply lookup_insert_eq |].
  split.
  - intros n H1 H2. rewrite !lookup_insert_ne by congruence. apply lookup_empty.
  - eexists. split; [reflexivity |].
    intros k Hout. destruct v.
    + rewrite Hk. rewrite decide_False by exact Hout. reflexivity.
    + apply defaults_keep_allowed; [| exact Hout].
      intros k' Hk'. rewrite Hk. rewrite decide_False by exact Hk'. reflexivity.
Qed.

Lemma image_route_outbound_request_witness :
  exists o,
    Request.method o = "POST" /\
    Headers_get (Request.headers o) "Content-Type" = Some "application/json" /\
    Headers_get (Request.headers o) "Authorization"
      = Some (or_empty (Headers_get (Request.headers (image_request [])) "Authorization")) /\
    (forall n,
        toLowerCase n <> "content-type" -> toLowerCase n <> "authorization" ->
        Headers_get (Request.headers o) n = None) /\
    exists fb,
      Request.body o = Some (JSON_stringify (JObj fb)) /\
      (forall k, k ∉ allow_list Xai -> fb !! k = None).
Proof.
  eexists.
  eapply (image_route_outbound_request Xai
            (rt_parsed (JObj {[ "prompt" := JStr "cat"; "size" := JStr "1x1" ]}))
            (image_request []) world0).
  - reflexivity.
  - reflexivity.
  - vm_compute. reflexivity.
  - left. reflexivity.
Defined.

(** X9. Whatever the request and whatever the host does, one run of
    [handleRequest] calls the upstream at most once. *)
Theorem at_most_one_upstream_call (v : Variant) (rt : Runtime) (req : Request.t)
    (w : World) :
  exists sent,
    fetched (snd (handleRequest v rt req w)) = (fetched w ++ sent)%list /\
    (length sent <= 1)%nat.
Proof.
  destruct (handleRequest_sent_once rt v req w) as (sent & Hs & Hl).
  exists sent. split; [exact Hs | exact Hl].
Qed.

(** ** When the upstream is called *)

Lemma sent_one_changes_log (l : list Request.t) (o : Request.t) :
  (l ++ [o])%list <> l.
Proof.
  intros E. symmetry in E. apply app_same_nil in E. discriminate E.
Qed.

Lemma get_nonnull (parsed : JSON) (k : string) :
  parsed <> JNull -> get parsed k = Normal (own_properties parsed !! k).
Proof.
  destruct parsed; simpl; intros Hn; try reflexivity; try congruence;
    rewrite lookup_empty; reflexivity.
Qed.

(** X10. The jimeng proxy calls the upstream exactly when the request is
    [POST /v1/images/generations], its Content-Type contains
    [application/json], and its body parses to an object whose prompt is
    truthy. *)
Theorem jimeng_calls_upstream_iff (rt : Runtime) (req : Request.t) (w : World) :
  (exists o, fetched (snd (handleRequest JimengV rt req w)) = (fetched w ++ [o])%list) <->
  (Request.method req = "POST" /\
   pathname (Request.url req) = "/v1/images/generations" /\
   includes "application/json"
     (or_empty (Headers_get (Request.headers req) "Content-Type")) = true /\
   exists m, rt_json rt (Request.body req) = Normal (JObj m) /\
             truthy (m !! "prompt") = true).
Proof.
  split.
  - intros [o Ho]. apply (jimeng_sent_only_if rt req w). simpl in Ho. rewrite Ho.
    apply sent_one_changes_log.
  - intros (Hm & Hp & Hc & m & Hj & Ht).
    destruct (jimeng_dispatch rt req w m Hm Hp Hc Hj Ht) as (fb & _ & Hs).
    eexists. exact Hs.
Qed.

Lemma jimeng_calls_upstream_iff_witness :
  exists o,
    fetched (snd (handleRequest JimengV (rt_parsed (JObj {[ "prompt" := JStr "cat" ]}))
                    (image_request []) world0)) = (fetched world0 ++ [o])%list.
Proof.
  apply (proj2 (jimeng_calls_upstream_iff (rt_parsed (JObj {[ "prompt" := JStr "cat" ]}))
                  (image_request []) world0)).
  split; [reflexivity |]. split; [reflexivity |]. split; [reflexivity |].
  exists {[ "prompt" := JStr "cat" ]}. split; reflexivity.
Defined.

(** X11. The xAI proxy calls the upstream exactly when the request is not
    OPTIONS, its path starts with [/v1/], and: on
    [POST /v1/images/generations], its Content-Type contains
    [application/json] and its body parses to something other than
    [null]; on any other route, its method is not CONNECT, TRACE or TRACK
    (in any letter case) and it is not a get or head spelled other than
    in upper case that carries a body. *)
Theorem xai_calls_upstream_iff (rt : Runtime) (req : Request.t) (w : World) :
  (exists o, fetched (snd (handleRequest Xai rt req w)) = (fetched w ++ [o])%list) <->
  (Request.method req <> "OPTIONS" /\
   startsWith "/v1/" (pathname (Request.url req)) = true /\
   (pathname (Request.url req) = "/v1/images/generations" ->
    Request.method req = "POST" ->
    includes "application/json"
      (or_empty (Headers_get (Request.headers req) "Content-Type")) = true /\
    exists parsed, rt_json rt (Request.body req) = Normal parsed /\ parsed <> JNull) /\
   (~ (pathname (Request.url req) = "/v1/images/generations" /\
       Request.method req = "POST") ->
    forbidden_method (Request.method req) = false /\
    (get_or_head (toUpperCase (Request.method req)) = true ->
     get_or_head (Request.method req) = true \/ Request.body req = None))).
Proof.
  split.
  - intros [o Ho].
    assert (fetched (snd (XAI.handleRequest rt req w)) <> fetched w) as Hne.
    { simpl in Ho. rewrite Ho. apply sent_one_changes_log. }
    destruct (xai_sent_only_if rt req w Hne) as (Hm & Hs & Himg).
    split; [exact Hm |]. split; [exact Hs |]. split; [exact Himg |].
    apply (xai_generic_sent_only_if rt req w Hne).
  - intros (Hm & Hs & Himg & Hgen).
    destruct (decide (pathname (Request.url req) = "/v1/images/generations"
                      /\ Request.method req = "POST")) as [[Hp Hpost] | Hn].
    + destruct (Himg Hp Hpost) as (Hc & parsed & Hj & Hnn).
      destruct (xai_dispatch_nonnull rt req w parsed Hpost Hp Hc Hj Hnn) as (fb & _ & Hd).
      eexists. exact Hd.
    + destruct (Hgen Hn) as (Hf & Hb).
      eexists. apply (xai_forward rt req w Hm Hs Hn Hf Hb).
Qed.

Lemma xai_calls_upstream_iff_witness :
  (exists o,
      fetched (snd (handleRequest Xai (rt_parsed (JNum 7)) (image_request []) world0))
        = (fetched world0 ++ [o])%list) /\
  ~ (exists o,
       fetched (snd (handleRequest Xai (rt_parsed JNull) trace_request world0))
         = (fetched world0 ++ [o])%list).
Proof.
  split.
  - apply (proj2 (xai_calls_upstream_iff (rt_parsed (JNum 7)) (image_request []) world0)).
    split; [simpl; discriminate |]. split; [reflexivity |].
    split.
    + intros _ _. split; [reflexivity |].
      exists (JNum 7). split; [reflexivity | discriminate].
    + intros Hn. exfalso. apply Hn. split; reflexivity.
  - intros Hsent.
    apply (proj1 (xai_calls_upstream_iff (rt_parsed JNull) trace_request world0)) in Hsent.
    destruct Hsent as (_ & _ & _ & Hgen).
    destruct Hgen as [Hf _]; [intros [H _]; discriminate H | discriminate Hf].
Defined.

(** ** Bodies that are not objects *)

(** X12. The xAI proxy does not check that the parsed body is an object:
    when it is a number, a string, a boolean or an array, the request
    still goes upstream, with the empty object as its body. *)
Theorem xai_non_object_body_forwards_empty (rt : Runtime) (req : Request.t)
    (w : World) (parsed : JSON) :
  Request.method req = "POST" ->
  pathname (Request.url req) = "/v1/images/generations" ->
  includes "application/json"
    (or_empty (Headers_get (Request.headers req) "Content-Type")) = true ->
  rt_json rt (Request.body req) = Normal parsed ->
  parsed <> JNull ->
  (forall m, parsed <> JObj m) ->
  exists o,
    fetched (snd (handleRequest Xai rt req w)) = (fetched w ++ [o])%list /\
    Request.body o = Some (JSON_stringify (JObj ∅)).
Proof.
  intros Hm Hp Hc Hj Hn Hobj.
  destruct (xai_dispatch_nonnull rt req w parsed Hm Hp Hc Hj Hn) as (fb & Hk & Hd).
  assert (fb = ∅) as ->.
  { apply map_eq. intros k. rewrite Hk, lookup_empty.
    assert (own_properties parsed = ∅) as ->
      by (destruct parsed; try reflexivity; exfalso; eapply Hobj; reflexivity).
    rewrite lookup_empty. case_decide; reflexivity. }
  eexists. split; [exact Hd | reflexivity].
Qed.

Lemma xai_non_object_body_forwards_empty_witness :
  exists o,
    fetched (snd (handleRequest Xai (rt_parsed (JArr [ JStr "cat" ])) (image_request [])
                    world0)) = (fetched world0 ++ [o])%list /\
    Request.body o = Some (JSON_stringify (JObj ∅)).
Proof.
  apply (xai_non_object_body_forwards_empty (rt_parsed (JArr [ JStr "cat" ]))
           (image_request []) world0 (JArr [ JStr "cat" ]));
    try reflexivity; try discriminate.
Defined.

(** X13. In the xAI proxy a body that parses to [null] stops the filter
    loop at its first read: nothing is sent upstream, the TypeError is
    handed to [console.error] under the label [Proxy error:], and the
    reply is the 500 of the outer handler with the TypeError's message. *)
Theorem xai_null_body_is_500 (rt : Runtime) (req : Request.t) (w : World) :
  Request.method req = "POST" ->
  pathname (Request.url req) = "/v1/images/generations" ->
  includes "application/json"
    (or_empty (Headers_get (Request.headers req) "Content-Type")) = true ->
  rt_json rt (Request.body req) = Normal JNull ->
  exists r w',
    handleRequest Xai rt req w = (Normal r, w') /\
    Response.status r = 500 /\
    Response.body r =
      Some (JSON_stringify
              (JObj {[ "error" :=
                         JStr "Internal Server Error: Cannot read properties of null (reading 'model')" ]})) /\
    fetched w' = fetched w /\
    console w' =
      (console w ++
       [ ("Proxy error:",
          TypeError "Cannot read properties of null (reading 'model')") ])%list.
Proof.
  intros Hm Hp Hc Hj. eexists _, _.
  split; [apply (xai_null_body rt req w Hm Hp Hc Hj) |].
  repeat split.
Qed.

Lemma xai_null_body_is_500_witness :
  exists r w',
    handleRequest Xai (rt_parsed JNull) (image_request []) world0 = (Normal r, w') /\
    Response.status r = 500 /\
    Response.body r =
      Some (JSON_stringify
              (JObj {[ "error" :=
                         JStr "Internal Server Error: Cannot read properties of null (reading 'model')" ]})) /\
    fetched w' = fetched world0 /\
    console w' =
      (console world0 ++
       [ ("Proxy error:",
          TypeError "Cannot read properties of null (reading 'model')") ])%list.
Proof.
  apply (xai_null_body_is_500 (rt_parsed JNull) (image_request []) world0); reflexivity.
Defined.

(** X14. In the jimeng proxy, with a JSON content type and a body that
    parses to anything but [null], a prompt that is missing or falsy (no
    such key, [null], [false], [0], the empty string, or a body that is
    not an object at all) gets the 400 reply naming prompt; nothing is
    sent or logged. *)
Theorem jimeng_falsy_prompt_is_400 (rt : Runtime) (req : Request.t) (w : World)
    (parsed : JSON) :
  Request.method req = "POST" ->
  pathname (Request.url req) = "/v1/images/generations" ->
  includes "application/json"
    (or_empty (Headers_get (Request.headers req) "Content-Type")) = true ->
  rt_json rt (Request.body req) = Normal parsed ->
  parsed <> JNull ->
  truthy (own_properties parsed !! "prompt") = false ->
  exists r,
    handleRequest JimengV rt req w = (Normal r, w) /\
    Response.status r = 400 /\
    Response.body r =
      Some (JSON_stringify (JObj {[ "error" := JStr "Missing required parameter: prompt" ]})) /\
    Headers_get (Response.headers r) "Access-Control-Allow-Origin" = Some "*".
Proof.
  intros Hm Hp Hc Hj Hn Ht. eexists.
  split.
  - apply (jimeng_missing_prompt_is_400 rt req w parsed _ Hm Hp Hc Hj
             (get_nonnull parsed "prompt" Hn) Ht).
  - repeat split.
Qed.

Lemma jimeng_falsy_prompt_is_400_witness :
  exists r,
    handleRequest JimengV (rt_parsed (JObj {[ "prompt" := JStr ""; "width" := JNum 512 ]}))
      (image_request []) world0 = (Normal r, world0) /\
    Response.status r = 400 /\
    Response.body r =
      Some (JSON_stringify (JObj {[ "error" := JStr "Missing required parameter: prompt" ]})) /\
    Headers_get (Response.headers r) "Access-Control-Allow-Origin" = Some "*".
Proof.
  apply (jimeng_falsy_prompt_is_400
           (rt_parsed (JObj {[ "prompt" := JStr ""; "width" := JNum 512 ]}))
           (image_request []) world0
           (JObj {[ "prompt" := JStr ""; "width" := JNum 512 ]}));
    try reflexivity; discriminate.
Defined.

(** ** The body sent upstream as a function of the parsed body *)

(** X15. What is sent upstream on the image route depends on the parsed
    object only through the allow-listed names: two objects that agree on
    every name of the allow-list lead to the same upstream request,
    whatever else they hold. *)
Theorem upstream_request_ignores_other_names (v : Variant) (rt1 rt2 : Runtime)
    (req : Request.t) (w : World) (m1 m2 : gmap string JSON) :
  Request.method req = "POST" ->
  pathname (Request.url req) = "/v1/images/generations" ->
  includes "application/json"
    (or_empty (Headers_get (Request.headers req) "Content-Type")) = true ->
  rt_json rt1 (Request.body req) = Normal (JObj m1) ->
  rt_json rt2 (Request.body req) = Normal (JObj m2) ->
  (forall k, k ∈ allow_list v -> m1 !! k = m2 !! k) ->
  (v = JimengV -> truthy (m1 !! "prompt") = true) ->
  fetched (snd (handleRequest v rt1 req w)) = fetched (snd (handleRequest v rt2 req w)).
Proof.
  intros Hm Hp Hc Hj1 Hj2 Hagree Ht.
  destruct v; simpl.
  - destruct (xai_dispatch rt1 req w m1 Hm Hp Hc Hj1) as (fb1 & Hk1 & ->).
    destruct (xai_dispatch rt2 req w m2 Hm Hp Hc Hj2) as (fb2 & Hk2 & ->).
    assert (fb1 = fb2) as ->; [| reflexivity].
    apply map_eq. intros k. rewrite Hk1, Hk2.
    case_decide; [apply Hagree; assumption | reflexivity].
  - assert (truthy (m2 !! "prompt") = true) as Ht2.
    { rewrite <- Hagree; [apply Ht; reflexivity |].
      simpl. unfold Jimeng.SUPPORTED_IMAGE_PARAMS. set_solver. }
    destruct (jimeng_dispatch rt1 req w m1 Hm Hp Hc Hj1 (Ht eq_refl)) as (fb1 & Hk1 & ->).
    destruct (jimeng_dispatch rt2 req w m2 Hm Hp Hc Hj2 Ht2) as (fb2 & Hk2 & ->).
    assert (fb1 = fb2) as ->; [| reflexivity].
    apply map_eq. intros k. rewrite Hk1, Hk2.
    case_decide; [apply Hagree; assumption | reflexivity].
Qed.

Lemma upstream_request_ignores_other_names_witness :
  fetched (snd (handleRequest Xai
                  (rt_parsed (JObj {[ "prompt" := JStr "cat"; "size" := JStr "1x1" ]}))
                  (image_request []) world0))
  = fetched (snd (handleRequest Xai
                    (rt_reset (JObj {[ "prompt" := JStr "cat"; "style" := JStr "vivid" ]}))
                    (image_request []) world0)).
Proof.
  apply (upstream_request_ignores_other_names Xai
           (rt_parsed (JObj {[ "prompt" := JStr "cat"; "size" := JStr "1x1" ]}))
           (rt_reset (JObj {[ "prompt" := JStr "cat"; "style" := JStr "vivid" ]}))
           (image_request []) world0
           {[ "prompt" := JStr "cat"; "size" := JStr "1x1" ]}
           {[ "prompt" := JStr "cat"; "style" := JStr "vivid" ]});
    try reflexivity.
  intros k Hk. simpl in Hk. unfold XAI.SUPPORTED_IMAGE_PARAMS in Hk.
  repeat (apply elem_of_cons in Hk as [-> | Hk]); [reflexivity .. | inversion Hk].
Defined.


Lemma written_truthy (x : JSON) :
  ToBoolean x = true -> ToBoolean (written x) = true \/ written x = JNull.
Proof. destruct x; simpl; auto. Qed.

(** X16. Every JSON text the jimeng proxy sends upstream denotes an object
    with exactly the six names of its allow-list, in which model, prompt,
    width and height are truthy or [null] ([null] being what
    [JSON.stringify] writes for a non-finite number). *)
Theorem jimeng_upstream_body_is_complete (rt : Runtime) (req : Request.t)
    (w : World) (sent : list Request.t) (o : Request.t) :
  fetched (snd (handleRequest JimengV rt req w)) = (fetched w ++ sent)%list ->
  In o sent ->
  exists t,
    Request.body o = Some (JSONText (JObj t)) /\
    dom t = (list_to_set Jimeng.SUPPORTED_IMAGE_PARAMS : gset string) /\
    Forall (fun k => truthy (t !! k) = true \/ t !! k = Some JNull)
      [ "model"; "prompt"; "width"; "height" ].
Proof.
  intros Hs Hin.
  assert (fetched (snd (Jimeng.handleRequest rt req w)) <> fetched w) as Hne.
  { simpl in Hs. rewrite Hs. intros E. symmetry in E. apply app_same_nil in E.
    subst sent. contradiction. }
  destruct (jimeng_sent_only_if rt req w Hne) as (Hm & Hp & Hc & m & Hj & Ht).
  destruct (jimeng_dispatch rt req w m Hm Hp Hc Hj Ht) as (fb & Hk & Hd).
  simpl in Hs. rewrite Hd in Hs. apply app_inv_head in Hs. subst sent.
  destruct Hin as [<- | []].
  exists (written <$> Jimeng.addDefaults fb). cbn [Request.body].
  assert (forall k, k ∈ Jimeng.SUPPORTED_IMAGE_PARAMS -> fb !! k = m !! k) as Hin.
  { intros k Hk'. rewrite Hk. rewrite decide_True by exact Hk'. reflexivity. }
  assert (Jimeng.addDefaults fb !! "prompt" = m !! "prompt") as Hprompt.
  { rewrite addDefaults_other by set_solver. apply Hin.
    unfold Jimeng.SUPPORTED_IMAGE_PARAMS. set_solver. }
  assert (truthy (Jimeng.addDefaults fb !! "model") = true) as Hmodel.
  { rewrite addDefaults_model. destruct (truthy (fb !! "model")) eqn:E; [exact E | reflexivity]. }
  assert (truthy (Jimeng.addDefaults fb !! "width") = true) as Hwidth.
  { rewrite addDefaults_width. destruct (truthy (fb !! "width")) eqn:E; [exact E | reflexivity]. }
  assert (truthy (Jimeng.addDefaults fb !! "height") = true) as Hheight.
  { rewrite addDefaults_height. destruct (truthy (fb !! "height")) eqn:E; [exact E | reflexivity]. }
  rewrite <- Hprompt in Ht.
  assert (forall k, truthy (Jimeng.addDefaults fb !! k) = true ->
                    truthy ((written <$> Jimeng.addDefaults fb) !! k) = true \/
                    (written <$> Jimeng.addDefaults fb) !! k = Some JNull) as Hwr.
  { intros k Hk'. rewrite lookup_fmap.
    destruct (Jimeng.addDefaults fb !! k) as [x |]; [| discriminate].
    simpl in *. destruct (written_truthy x Hk') as [H | H]; [left; exact H |].
    right. rewrite H. reflexivity. }
  split; [reflexivity |].
  split; [| repeat (apply Forall_cons_2; [apply Hwr; assumption |]); apply Forall_nil_2].
  rewrite dom_fmap_L.
  apply set_eq. intros k. rewrite elem_of_dom, elem_of_list_to_set.
  split.
  - intros [x Hx]. destruct (decide (k ∈ Jimeng.SUPPORTED_IMAGE_PARAMS)) as [| Hout];
      [assumption |].
    rewrite defaults_keep_allowed in Hx; [discriminate | | exact Hout].
    intros k' Hk'. rewrite Hk. rewrite decide_False by exact Hk'. reflexivity.
  - intros Hk'. unfold Jimeng.SUPPORTED_IMAGE_PARAMS in Hk'.
    repeat (apply elem_of_cons in Hk' as [-> | Hk']); [.. | inversion Hk'].
    + apply truthy_is_Some. exact Hmodel.
    + apply truthy_is_Some. exact Ht.
    + rewrite addDefaults_negativePrompt.
      destruct (truthy (fb !! "negativePrompt")) eqn:E; [apply truthy_is_Some; exact E | eauto].
    + apply truthy_is_Some. exact Hwidth.
    + apply truthy_is_Some. exact Hheight.
    + rewrite addDefaults_sample_strength. destruct (fb !! "sample_strength"); eauto.
Qed.

Lemma jimeng_upstream_body_is_complete_witness :
  exists o t,
    Request.body o = Some (JSONText (JObj t)) /\
    dom t = (list_to_set Jimeng.SUPPORTED_IMAGE_PARAMS : gset string) /\
    Forall (fun k => truthy (t !! k) = true \/ t !! k = Some JNull)
      [ "model"; "prompt"; "width"; "height" ].
Proof.
  eexists.
  eapply (jimeng_upstream_body_is_complete
            (rt_parsed (JObj {[ "prompt" := JInfinity false; "width" := JNum 0 ]}))
            (image_request []) world0).
  - vm_compute. reflexivity.
  - left. reflexivity.
Defined.



